(** * The event reactor of [web/containers/Providers/EventHandler.tsx]

    A shallow embedding of the handlers that [EventHandler] registers on
    the event bus, of the effects they issue, and of the state cells
    those effects write; followed by the properties of the reactor. *)

From Stdlib Require Import NArith List String Ascii.
From stdpp Require Import base decidable option list gmap.

Local Open Scope N_scope.

(** ** JavaScript strings

    A JavaScript string is a sequence of UTF-16 code units. *)

Abbreviation jsstring := (list N).

(** A literal of the source, read as its code units. *)
Definition js (s : string) : jsstring :=
  map N_of_ascii (list_ascii_of_string s).
Arguments js : simpl never.

(** [WhiteSpace] and [LineTerminator] of ECMAScript, the code units
    that [String.prototype.trim] strips. *)
Definition is_white_space (c : N) : bool :=
  (c =? 0x9) || (c =? 0xA) || (c =? 0xB) || (c =? 0xC) || (c =? 0xD)
  || (c =? 0x20) || (c =? 0xA0) || (c =? 0x1680)
  || ((0x2000 <=? c) && (c <=? 0x200A))
  || (c =? 0x2028) || (c =? 0x2029) || (c =? 0x202F) || (c =? 0x205F)
  || (c =? 0x3000) || (c =? 0xFEFF).

Fixpoint trimStart (s : jsstring) : jsstring :=
  match s with
  | c :: s' => if is_white_space c then trimStart s' else s
  | [] => []
  end.

Definition trimEnd (s : jsstring) : jsstring := rev (trimStart (rev s)).

Definition trim (s : jsstring) : jsstring := trimEnd (trimStart s).

(** The values that the reactor carries without looking inside them
    (metadata entries, model parameters, the [error] of a failure):
    [undefined], [null], booleans and strings. *)
Inductive JsValue :=
| VUndefined
| VNull
| VBool (b : bool)
| VStr (s : jsstring).

(** [`${v}`]: the string conversion of a template literal. *)
Definition ToString (v : JsValue) : jsstring :=
  match v with
  | VUndefined => js "undefined"
  | VNull => js "null"
  | VBool true => js "true"
  | VBool false => js "false"
  | VStr s => s
  end.

(** ** Data model

    The types of [@janhq/core] that the handlers touch. The source file
    imports their declarations; the fields below are the ones the
    handlers read or write, and what else an object spread copies from a
    thread or a model is kept in [rest]. *)

Module MessageStatus.
(** Modelled from the spec: the enum [MessageStatus] of [@janhq/core]
    (section 3: [Pending], [Ready], [Error]). *)
Inductive t := Ready | Pending | Error.
#[global] Instance eq_dec : EqDecision t.
Proof. solve_decision. Defined.
End MessageStatus.

Module MessageRequestType.
(** Modelled from the spec: the enum [MessageRequestType] of
    [@janhq/core] (section 3: [Thread] for normal turns, [Summary] for
    the title-generation turn). *)
Inductive t := Thread | Summary.
#[global] Instance eq_dec : EqDecision t.
Proof. solve_decision. Defined.
End MessageRequestType.

Module ChatCompletionRole.
(** Modelled from the spec: the enum [ChatCompletionRole] of
    [@janhq/core] (section 3: user, assistant, system). *)
Inductive t := System | Assistant | User.
End ChatCompletionRole.

Module ContentValue.
(** Modelled from the spec: the text of a content part (section 3: the
    text value of a part is the display string). *)
Record t := mk { value : jsstring; annotations : list jsstring }.
End ContentValue.

Module ThreadContent.
(** Modelled from the spec: one part of the content of a message
    (section 3), read by the handlers as [part.text.value]; [text] is
    there in every part. *)
Record t := mk { text : ContentValue.t }.
End ThreadContent.

Module ThreadMessage.
(** Modelled from the spec: [ThreadMessage] (section 3). *)
Record t := mk {
  id : jsstring;
  thread_id : jsstring;
  role : ChatCompletionRole.t;
  content : list ThreadContent.t;
  status : MessageStatus.t;
  type : MessageRequestType.t
}.
End ThreadMessage.

Module Thread.
(** Modelled from the spec: [Thread] (section 3); [metadata] is
    optional, the handlers spread it and copy it. *)
Record t := mk {
  id : jsstring;
  title : jsstring;
  metadata : option (gmap jsstring JsValue);
  rest : gmap jsstring JsValue
}.
End Thread.

Module Model.
(** Modelled from the spec: [Model] (section 3), with its [parameters]
    mapping. *)
Record t := mk {
  id : jsstring;
  parameters : gmap jsstring JsValue;
  rest : gmap jsstring JsValue
}.
End Model.

Module ChatCompletionMessage.
(** One turn of a prompt, as [generateThreadTitle] builds it. *)
Record t := mk { role : ChatCompletionRole.t; content : option jsstring }.
End ChatCompletionMessage.

Module MessageRequest.
(** The request that [generateThreadTitle] builds. *)
Record t := mk {
  id : jsstring;
  threadId : jsstring;
  type : MessageRequestType.t;
  messages : list ChatCompletionMessage.t;
  model : Model.t
}.
End MessageRequest.

Module ModelState.
(** The value that the handlers give to [setStateModel]. *)
Inductive action := start | stop.
Record t := mk { state : action; loading : bool; model : jsstring }.
End ModelState.

Module ModelFailure.
(** The payload of [ModelEvent.OnModelFail]: [res: any] in the source,
    of which [res.error] and [res.modelId] are read. *)
Record t := mk { error : JsValue; modelId : jsstring }.
End ModelFailure.

(** ** Effects

    What a handler does to its collaborators, in the order of the calls:
    the setters of the state store (the [useSetAtom] hooks), the
    Conversational extension, the toaster, the console, the timer and
    the event bus. *)

(** The two callbacks that the source hands to [setTimeout]. *)
Inductive Callback :=
| emitMessageSent (request : MessageRequest.t)
| clearActiveModel.

Inductive Effect :=
| addNewMessage (message : ThreadMessage.t)
| updateMessage (id thread_id : jsstring) (content : list ThreadContent.t)
    (status : MessageStatus.t)
| updateThreadWaiting (thread_id : jsstring) (waiting : bool)
| setIsGeneratingResponse (generating : bool)
| updateThread (thread : Thread.t)
| setActiveModel (model : option Model.t)
| setStateModel (state : ModelState.t)
| setLoadModelError (message : jsstring)
| setQueuedMessage (queued : bool)
| saveThread (thread : Thread.t)
| extensionAddNewMessage (message : ThreadMessage.t)
| toaster (title description type : jsstring)
| consoleError (text : jsstring)
| setTimeout (callback : Callback) (ms : N)
| eventsEmit (request : MessageRequest.t).

(** What a handler reads besides its argument: the three refs that mirror
    the state store, whether [extensionManager.get] finds the
    Conversational extension, and the identifier that [ulid()] returns
    when it is called. *)
Record Env := {
  threadsRef : list Thread.t;
  messagesRef : list ThreadMessage.t;
  activeModelRef : option Model.t;
  conversational : bool;
  ulid : jsstring
}.

(** ** Handlers *)

(** [content[0]?.text?.value] *)
Definition firstText (content : list ThreadContent.t) : option jsstring :=
  match content with
  | part :: _ => Some (ContentValue.value (ThreadContent.text part))
  | [] => None
  end.

(** [threadsRef.current?.find((e) => e.id == thread_id)] *)
Definition findThread (threads : list Thread.t) (thread_id : jsstring)
  : option Thread.t :=
  find (fun e => bool_decide (Thread.id e = thread_id)) threads.

(** [extensionManager.get(Conversational)?.f(...)]: the calls are made
    only when the extension is registered. *)
Definition withConversational (env : Env) (calls : list Effect) : list Effect :=
  if conversational env then calls else [].

Definition onNewMessageResponse (message : ThreadMessage.t) : list Effect :=
  if decide (ThreadMessage.type message = MessageRequestType.Thread)
  then [addNewMessage message]
  else [].

Definition onModelReady (model : Model.t) : list Effect :=
  [ setActiveModel (Some model);
    toaster (js "Success!")
      (js "Model " ++ Model.id model ++ js " has been started.")
      (js "success");
    setStateModel
      {| ModelState.state := ModelState.stop;
         ModelState.loading := false;
         ModelState.model := Model.id model |} ].

Definition onModelStopped : list Effect :=
  [ setTimeout clearActiveModel 500 ].

Definition onModelInitFailed (res : ModelFailure.t) : list Effect :=
  let errorMessage := ToString (ModelFailure.error res) in
  [ consoleError (js "Failed to load model: " ++ errorMessage);
    setStateModel
      {| ModelState.state := ModelState.start;
         ModelState.loading := false;
         ModelState.model := ModelFailure.modelId res |};
    setLoadModelError errorMessage;
    setQueuedMessage false ].

Definition updateThreadTitle (env : Env) (message : ThreadMessage.t)
  : list Effect :=
  if decide (ThreadMessage.status message = MessageStatus.Pending) then []
  else
    let thread := findThread (threadsRef env) (ThreadMessage.thread_id message) in
    let messageContent := firstText (ThreadMessage.content message) in
    match thread, messageContent with
    | Some thread, Some ((_ :: _) as messageContent) =>
        updateThread
          {| Thread.id := Thread.id thread;
             Thread.title := messageContent;
             Thread.metadata := Thread.metadata thread;
             Thread.rest := Thread.rest thread |}
        :: withConversational env [ saveThread thread ]
    | _, _ => []
    end.

Definition summarizeFirstPrompt : jsstring :=
  js "Summarize the conversation above in 5 words as a title".

Definition generateThreadTitle (env : Env) (message : ThreadMessage.t)
  (thread : Thread.t) : list Effect :=
  if decide (trim (Thread.title thread) = js "New Thread") then
    match activeModelRef env with
    | Some activeModel =>
        let threadMessages := messagesRef env in
        let msgId := ulid env in
        let messages :=
          map (fun msg =>
                 {| ChatCompletionMessage.role := ThreadMessage.role msg;
                    ChatCompletionMessage.content :=
                      firstText (ThreadMessage.content msg) |})
              threadMessages
          ++ [ {| ChatCompletionMessage.role := ChatCompletionRole.User;
                  ChatCompletionMessage.content := Some summarizeFirstPrompt |} ] in
        let firstPromptRequest :=
          {| MessageRequest.id := msgId;
             MessageRequest.threadId := ThreadMessage.thread_id message;
             MessageRequest.type := MessageRequestType.Summary;
             MessageRequest.messages := messages;
             MessageRequest.model :=
               {| Model.id := Model.id activeModel;
                  Model.parameters := {[ js "stream" := VBool false ]};
                  Model.rest := Model.rest activeModel |} |} in
        [ setTimeout (emitMessageSent firstPromptRequest) 1000 ]
    | None => []
    end
  else [].

(** [{ ...thread.metadata, ...(messageContent && { lastMessage: messageContent }) }] *)
Definition mergeLastMessage (metadata : option (gmap jsstring JsValue))
  (messageContent : option jsstring) : gmap jsstring JsValue :=
  let spread := default ∅ metadata in
  match messageContent with
  | Some ((_ :: _) as messageContent) =>
      <[ js "lastMessage" := VStr messageContent ]> spread
  | _ => spread
  end.

Definition updateThreadMessage (env : Env) (message : ThreadMessage.t)
  : list Effect :=
  updateMessage (ThreadMessage.id message) (ThreadMessage.thread_id message)
    (ThreadMessage.content message) (ThreadMessage.status message)
  ::
  if decide (ThreadMessage.status message = MessageStatus.Pending) then
    match ThreadMessage.content message with
    | _ :: _ =>
        [ updateThreadWaiting (ThreadMessage.thread_id message) false;
          setIsGeneratingResponse false ]
    | [] => []
    end
  else
    updateThreadWaiting (ThreadMessage.thread_id message) false
    :: setIsGeneratingResponse false
    :: match findThread (threadsRef env) (ThreadMessage.thread_id message) with
       | Some thread =>
           let messageContent := firstText (ThreadMessage.content message) in
           let metadata := mergeLastMessage (Thread.metadata thread) messageContent in
           let updated :=
             {| Thread.id := Thread.id thread;
                Thread.title := Thread.title thread;
                Thread.metadata := Some metadata;
                Thread.rest := Thread.rest thread |} in
           updateThread updated
           :: withConversational env
                [ saveThread updated; extensionAddNewMessage message ]
           ++ generateThreadTitle env message thread
       | None => []
       end.

Definition onMessageResponseUpdate (env : Env) (message : ThreadMessage.t)
  : list Effect :=
  match ThreadMessage.type message with
  | MessageRequestType.Summary => updateThreadTitle env message
  | _ => updateThreadMessage env message
  end.

(** What a callback does when its timer fires. *)
Definition runCallback (callback : Callback) : list Effect :=
  match callback with
  | emitMessageSent request => [ eventsEmit request ]
  | clearActiveModel =>
      [ setActiveModel None;
        setStateModel
          {| ModelState.state := ModelState.start;
             ModelState.loading := false;
             ModelState.model := [] |} ]
  end.

(** The events the component subscribes to, and their dispatch. *)
Inductive Event :=
| OnMessageResponse (message : ThreadMessage.t)
| OnMessageUpdate (message : ThreadMessage.t)
| OnModelReady (model : Model.t)
| OnModelFail (res : ModelFailure.t)
| OnModelStopped.

Definition handle (env : Env) (event : Event) : list Effect :=
  match event with
  | OnMessageResponse message => onNewMessageResponse message
  | OnMessageUpdate message => onMessageResponseUpdate env message
  | OnModelReady model => onModelReady model
  | OnModelFail res => onModelInitFailed res
  | OnModelStopped => onModelStopped
  end.

(** ** State store

    The atoms behind the hooks of the component. Their definitions live
    in the hooks and helpers that the source file imports. *)

(** Modelled from the spec: the cells of the State Store (section 2):
    active model, model load status, last load error, queued-message
    flag, generating flag, per-thread waiting flag, thread list, the
    message list of every thread, and which thread is the current one. *)
Record Store := {
  activeModelAtom : option Model.t;
  stateModelAtom : ModelState.t;
  loadModelErrorAtom : option jsstring;
  queuedMessageAtom : bool;
  isGeneratingResponseAtom : bool;
  threadWaitingForResponse : gmap jsstring bool;
  threadsAtom : list Thread.t;
  chatMessages : gmap jsstring (list ThreadMessage.t);
  activeThreadId : option jsstring
}.

(** Modelled from the spec: the write of [updateMessageAtom] (section 6:
    update message by (id, thread id) with new content/status), on the
    message list of one thread; the message is the one [find] returns. *)
Fixpoint updateMessageIn (id : jsstring) (content : list ThreadContent.t)
  (status : MessageStatus.t) (messages : list ThreadMessage.t)
  : list ThreadMessage.t :=
  match messages with
  | m :: rest =>
      if bool_decide (ThreadMessage.id m = id) then
        {| ThreadMessage.id := ThreadMessage.id m;
           ThreadMessage.thread_id := ThreadMessage.thread_id m;
           ThreadMessage.role := ThreadMessage.role m;
           ThreadMessage.content := content;
           ThreadMessage.status := status;
           ThreadMessage.type := ThreadMessage.type m |} :: rest
      else m :: updateMessageIn id content status rest
  | [] => []
  end.

(** Modelled from the spec: the write of [updateThreadAtom] (section 6:
    update thread record), the record with the id of [thread] becomes
    [thread]. *)
Definition updateThreadIn (thread : Thread.t) (threads : list Thread.t)
  : list Thread.t :=
  map (fun c => if bool_decide (Thread.id c = Thread.id thread) then thread else c)
      threads.

(** Modelled from the spec: the state store accessor contract (section 6
    and 4.2): each setter writes its cell, [addNewMessage] appends the
    message to the list of its thread, and the calls that go to other
    collaborators leave the store as it is. *)
Definition applyEffect (s : Store) (effect : Effect) : Store :=
  match effect with
  | addNewMessage message =>
      let thread_id := ThreadMessage.thread_id message in
      {| activeModelAtom := activeModelAtom s;
         stateModelAtom := stateModelAtom s;
         loadModelErrorAtom := loadModelErrorAtom s;
         queuedMessageAtom := queuedMessageAtom s;
         isGeneratingResponseAtom := isGeneratingResponseAtom s;
         threadWaitingForResponse := threadWaitingForResponse s;
         threadsAtom := threadsAtom s;
         chatMessages :=
           <[ thread_id := default [] (chatMessages s !! thread_id) ++ [message] ]>
             (chatMessages s);
         activeThreadId := activeThreadId s |}
  | updateMessage id thread_id content status =>
      {| activeModelAtom := activeModelAtom s;
         stateModelAtom := stateModelAtom s;
         loadModelErrorAtom := loadModelErrorAtom s;
         queuedMessageAtom := queuedMessageAtom s;
         isGeneratingResponseAtom := isGeneratingResponseAtom s;
         threadWaitingForResponse := threadWaitingForResponse s;
         threadsAtom := threadsAtom s;
         chatMessages :=
           alter (updateMessageIn id content status) thread_id (chatMessages s);
         activeThreadId := activeThreadId s |}
  | updateThreadWaiting thread_id waiting =>
      {| activeModelAtom := activeModelAtom s;
         stateModelAtom := stateModelAtom s;
         loadModelErrorAtom := loadModelErrorAtom s;
         queuedMessageAtom := queuedMessageAtom s;
         isGeneratingResponseAtom := isGeneratingResponseAtom s;
         threadWaitingForResponse :=
           <[ thread_id := waiting ]> (threadWaitingForResponse s);
         threadsAtom := threadsAtom s;
         chatMessages := chatMessages s;
         activeThreadId := activeThreadId s |}
  | setIsGeneratingResponse generating =>
      {| activeModelAtom := activeModelAtom s;
         stateModelAtom := stateModelAtom s;
         loadModelErrorAtom := loadModelErrorAtom s;
         queuedMessageAtom := queuedMessageAtom s;
         isGeneratingResponseAtom := generating;
         threadWaitingForResponse := threadWaitingForResponse s;
         threadsAtom := threadsAtom s;
         chatMessages := chatMessages s;
         activeThreadId := activeThreadId s |}
  | updateThread thread =>
      {| activeModelAtom := activeModelAtom s;
         stateModelAtom := stateModelAtom s;
         loadModelErrorAtom := loadModelErrorAtom s;
         queuedMessageAtom := queuedMessageAtom s;
         isGeneratingResponseAtom := isGeneratingResponseAtom s;
         threadWaitingForResponse := threadWaitingForResponse s;
         threadsAtom := updateThreadIn thread (threadsAtom s);
         chatMessages := chatMessages s;
         activeThreadId := activeThreadId s |}
  | setActiveModel model =>
      {| activeModelAtom := model;
         stateModelAtom := stateModelAtom s;
         loadModelErrorAtom := loadModelErrorAtom s;
         queuedMessageAtom := queuedMessageAtom s;
         isGeneratingResponseAtom := isGeneratingResponseAtom s;
         threadWaitingForResponse := threadWaitingForResponse s;
         threadsAtom := threadsAtom s;
         chatMessages := chatMessages s;
         activeThreadId := activeThreadId s |}
  | setStateModel state =>
      {| activeModelAtom := activeModelAtom s;
         stateModelAtom := state;
         loadModelErrorAtom := loadModelErrorAtom s;
         queuedMessageAtom := queuedMessageAtom s;
         isGeneratingResponseAtom := isGeneratingResponseAtom s;
         threadWaitingForResponse := threadWaitingForResponse s;
         threadsAtom := threadsAtom s;
         chatMessages := chatMessages s;
         activeThreadId := activeThreadId s |}
  | setLoadModelError message =>
      {| activeModelAtom := activeModelAtom s;
         stateModelAtom := stateModelAtom s;
         loadModelErrorAtom := Some message;
         queuedMessageAtom := queuedMessageAtom s;
         isGeneratingResponseAtom := isGeneratingResponseAtom s;
         threadWaitingForResponse := threadWaitingForResponse s;
         threadsAtom := threadsAtom s;
         chatMessages := chatMessages s;
         activeThreadId := activeThreadId s |}
  | setQueuedMessage queued =>
      {| activeModelAtom := activeModelAtom s;
         stateModelAtom := stateModelAtom s;
         loadModelErrorAtom := loadModelErrorAtom s;
         queuedMessageAtom := queued;
         isGeneratingResponseAtom := isGeneratingResponseAtom s;
         threadWaitingForResponse := threadWaitingForResponse s;
         threadsAtom := threadsAtom s;
         chatMessages := chatMessages s;
         activeThreadId := activeThreadId s |}
  | saveThread _ | extensionAddNewMessage _ | toaster _ _ _
  | consoleError _ | setTimeout _ _ | eventsEmit _ => s
  end.

Definition run (effects : list Effect) (s : Store) : Store :=
  fold_left applyEffect effects s.

(** Modelled from the spec: the value of [getCurrentChatMessagesAtom]
    (section 2: the current thread's message list). *)
Definition getCurrentChatMessages (s : Store) : list ThreadMessage.t :=
  match activeThreadId s with
  | Some thread_id => default [] (chatMessages s !! thread_id)
  | None => []
  end.

(** The [useEffect] hooks that copy the atoms into the refs after a
    render. *)
Definition refresh (s : Store) (env : Env) : Env :=
  {| threadsRef := threadsAtom s;
     messagesRef := getCurrentChatMessages s;
     activeModelRef := activeModelAtom s;
     conversational := conversational env;
     ulid := ulid env |}.

(** One event delivered to the component after a render: the refs hold
    the values of the atoms. A handler that runs before the next render
    reads the refs of the render before; that is [run (handle env event) s]
    for the [env] of that time, whatever the store [s] holds by then. *)
Definition deliver (env : Env) (s : Store) (event : Event) : Store :=
  run (handle (refresh s env) event) s.

(** A sequence of events, the component rendering, and so refreshing its
    refs, between one delivery and the next. *)
Definition feed (env : Env) (events : list Event) (s : Store) : Store :=
  fold_left (deliver env) events s.

(** ** What the claims observe *)

(** The timers a handler starts. *)
Definition timers (effects : list Effect) : list (Callback * N) :=
  omap (fun e => match e with
                 | setTimeout callback ms => Some (callback, ms)
                 | _ => None
                 end) effects.

(** The events that the timers of a handler put on the bus when they
    fire. *)
Definition emitted (effects : list Effect) : list MessageRequest.t :=
  omap (fun e => match e with eventsEmit request => Some request | _ => None end)
       (flat_map (fun t => runCallback (fst t)) (timers effects)).

(** The threads handed to [saveThread]. *)
Definition savedThreads (effects : list Effect) : list Thread.t :=
  omap (fun e => match e with saveThread thread => Some thread | _ => None end)
       effects.

(** The waiting flag of a thread, as the interface reads it. *)
Definition isWaiting (s : Store) (thread_id : jsstring) : bool :=
  default false (threadWaitingForResponse s !! thread_id).

(** The stored message [(id, thread_id)]. *)
Definition storedMessage (s : Store) (id thread_id : jsstring)
  : option ThreadMessage.t :=
  find (fun m => bool_decide (ThreadMessage.id m = id))
       (default [] (chatMessages s !! thread_id)).

(** How often a flag goes from [true] to [false] along a trace. *)
Fixpoint clearings (trace : list bool) : nat :=
  match trace with
  | true :: (false :: _) as rest => S (clearings rest)
  | _ :: rest => clearings rest
  | [] => 0%nat
  end.

(** One update of a streamed message: [base] under the given status,
    its content a single text part. *)
Definition streamed (base : ThreadMessage.t) (status : MessageStatus.t)
  (text : jsstring) : ThreadMessage.t :=
  {| ThreadMessage.id := ThreadMessage.id base;
     ThreadMessage.thread_id := ThreadMessage.thread_id base;
     ThreadMessage.role := ThreadMessage.role base;
     ThreadMessage.content :=
       [ {| ThreadContent.text :=
              {| ContentValue.value := text; ContentValue.annotations := [] |} |} ];
     ThreadMessage.status := status;
     ThreadMessage.type := ThreadMessage.type base |}.

(** ** Sample data

    A thread, a streamed answer, a summary and a model, for the
    examples. *)

Module Sample.

Definition part (text : jsstring) : ThreadContent.t :=
  ThreadContent.mk (ContentValue.mk text []).

Definition thread (title : jsstring) : Thread.t :=
  Thread.mk (js "t1") title
    (Some {[ js "lastMessage" := VStr (js "Hi"); js "pinned" := VBool true ]})
    {[ js "object" := VStr (js "thread") ]}.

Definition question : ThreadMessage.t :=
  ThreadMessage.mk (js "m0") (js "t1") ChatCompletionRole.User
    [ part (js "Hi") ] MessageStatus.Ready MessageRequestType.Thread.

Definition answer (status : MessageStatus.t) (content : list ThreadContent.t)
  : ThreadMessage.t :=
  ThreadMessage.mk (js "m1") (js "t1") ChatCompletionRole.Assistant
    content status MessageRequestType.Thread.

Definition summary (text : jsstring) : ThreadMessage.t :=
  ThreadMessage.mk (js "s1") (js "t1") ChatCompletionRole.Assistant
    [ part text ] MessageStatus.Ready MessageRequestType.Summary.

Definition llama : Model.t :=
  Model.mk (js "llama")
    {[ js "stream" := VBool true; js "stop" := VStr (js "</s>") ]}
    {[ js "engine" := VStr (js "nitro") ]}.

Definition env (title : jsstring) : Env :=
  {| threadsRef := [ thread title ];
     messagesRef := [ question; answer MessageStatus.Ready [ part (js "Hello world") ] ];
     activeModelRef := Some llama;
     conversational := true;
     ulid := js "01HQZ3" |}.

(** The refs before any thread is known. *)
Definition detached : Env :=
  {| threadsRef := [];
     messagesRef := [ question ];
     activeModelRef := Some llama;
     conversational := true;
     ulid := js "01HQZ3" |}.

(** A store in which thread [t1] waits for the answer [m1]. *)
Definition store (title : jsstring) : Store :=
  {| activeModelAtom := Some llama;
     stateModelAtom := ModelState.mk ModelState.stop false (js "llama");
     loadModelErrorAtom := None;
     queuedMessageAtom := true;
     isGeneratingResponseAtom := true;
     threadWaitingForResponse := {[ js "t1" := true ]};
     threadsAtom := [ thread title ];
     chatMessages :=
       {[ js "t1" := [ question; answer MessageStatus.Pending [] ] ]};
     activeThreadId := Some (js "t1") |}.



(** The store after the answer "Hello world" completed: [lastMessage]
    of [t1] is "Hello world", while [env] still holds the thread with
    [lastMessage] "Hi". *)
Definition answered (title : jsstring) : Store :=
  run (onMessageResponseUpdate (env title)
         (answer MessageStatus.Ready [ part (js "Hello world") ]))
      (store title).

End Sample.

(** ** Runs

    What happens to the store over time: an event is delivered to the
    component, or a timer that a handler started fires. As in [feed], the
    component renders between the steps, so that every delivery finds
    the refs refreshed from the store. *)

Inductive Step :=
| Deliver (event : Event)
| Fire (callback : Callback).

Definition step (env : Env) (s : Store) (st : Step) : Store :=
  match st with
  | Deliver event => deliver env s event
  | Fire callback => run (runCallback callback) s
  end.

Definition exec (env : Env) (steps : list Step) (s : Store) : Store :=
  fold_left (step env) steps s.

(** The effects of a step, for the refs [env]. *)
Definition stepEffects (env : Env) (st : Step) : list Effect :=
  match st with
  | Deliver event => handle env event
  | Fire callback => runCallback callback
  end.

(** The steps that can change a title: the updates of Summary type. *)
Definition isSummaryUpdate (st : Step) : bool :=
  match st with
  | Deliver (OnMessageUpdate message) =>
      bool_decide (ThreadMessage.type message = MessageRequestType.Summary)
  | _ => false
  end.

(** The steps about messages, as opposed to the steps about the model. *)
Definition isMessageStep (st : Step) : bool :=
  match st with
  | Deliver (OnMessageResponse _) | Deliver (OnMessageUpdate _)
  | Fire (emitMessageSent _) => true
  | _ => false
  end.

(** The cells of the store, and the cell that an effect writes. *)
Inductive Cell :=
| ActiveModel | StateModel | LoadModelError | QueuedMessage
| IsGeneratingResponse | WaitingForResponse | Threads | ChatMessages
| ActiveThread.

Definition writes (effect : Effect) : option Cell :=
  match effect with
  | addNewMessage _ | updateMessage _ _ _ _ => Some ChatMessages
  | updateThreadWaiting _ _ => Some WaitingForResponse
  | setIsGeneratingResponse _ => Some IsGeneratingResponse
  | updateThread _ => Some Threads
  | setActiveModel _ => Some ActiveModel
  | setStateModel _ => Some StateModel
  | setLoadModelError _ => Some LoadModelError
  | setQueuedMessage _ => Some QueuedMessage
  | saveThread _ | extensionAddNewMessage _ | toaster _ _ _
  | consoleError _ | setTimeout _ _ | eventsEmit _ => None
  end.

(** Two stores hold the same value in a cell. *)
Definition agree (cell : Cell) (s s' : Store) : Prop :=
  match cell with
  | ActiveModel => activeModelAtom s = activeModelAtom s'
  | StateModel => stateModelAtom s = stateModelAtom s'
  | LoadModelError => loadModelErrorAtom s = loadModelErrorAtom s'
  | QueuedMessage => queuedMessageAtom s = queuedMessageAtom s'
  | IsGeneratingResponse => isGeneratingResponseAtom s = isGeneratingResponseAtom s'
  | WaitingForResponse => threadWaitingForResponse s = threadWaitingForResponse s'
  | Threads => threadsAtom s = threadsAtom s'
  | ChatMessages => chatMessages s = chatMessages s'
  | ActiveThread => activeThreadId s = activeThreadId s'
  end.

(** The cells of the model, as opposed to those of the conversation. *)
Definition isModelCell (cell : Cell) : bool :=
  match cell with
  | ActiveModel | StateModel | LoadModelError | QueuedMessage => true
  | _ => false
  end.

(** The records handed to [updateThread]. *)
Definition threadWrites (effects : list Effect) : list Thread.t :=
  omap (fun e => match e with updateThread thread => Some thread | _ => None end)
       effects.


(** An entry of the metadata of the thread [thread_id] of the store. *)
Definition threadMetadata (s : Store) (thread_id key : jsstring) : option JsValue :=
  match findThread (threadsAtom s) thread_id with
  | Some thread => default ∅ (Thread.metadata thread) !! key
  | None => None
  end.

(** The steps that record a load error: the load failures. *)
Definition isLoadFailure (st : Step) : bool :=
  match st with
  | Deliver (OnModelFail _) => true
  | _ => false
  end.

(** * Properties *)

(** ** The handlers on the sample data *)

Example trim_padded_sentinel :
  trim ([0x20; 0x9] ++ js "New Thread" ++ [0xA0; 0xA]) = js "New Thread".
Proof. reflexivity. Qed.

Example trim_keeps_inner_space : trim (js " New  Thread") = js "New  Thread".
Proof. reflexivity. Qed.

(** A completed answer for a thread still called "New Thread": the
    message is stored, the flags are cleared, the last message goes into
    the metadata, thread and message go to the extension, and the timer
    of the title request is started. *)
Example completed_answer_effects :
  let message := Sample.answer MessageStatus.Ready [ Sample.part (js "Hello world") ] in
  let updated :=
    Thread.mk (js "t1") (js "New Thread")
      (Some {[ js "lastMessage" := VStr (js "Hello world"); js "pinned" := VBool true ]})
      {[ js "object" := VStr (js "thread") ]} in
  ∃ request,
    onMessageResponseUpdate (Sample.env (js "New Thread")) message
    = [ updateMessage (js "m1") (js "t1") [ Sample.part (js "Hello world") ]
          MessageStatus.Ready;
        updateThreadWaiting (js "t1") false;
        setIsGeneratingResponse false;
        updateThread updated;
        saveThread updated;
        extensionAddNewMessage message;
        setTimeout (emitMessageSent request) 1000 ].
Proof. eexists. reflexivity. Qed.

Example model_stopped_callback :
  flat_map (fun t => runCallback (fst t)) (timers onModelStopped)
  = [ setActiveModel None;
      setStateModel (ModelState.mk ModelState.start false []) ].
Proof. reflexivity. Qed.

(** ** Running effects *)


Lemma run_app (effects1 effects2 : list Effect) (s : Store) :
  run (effects1 ++ effects2) s = run effects2 (run effects1 s).
Proof. unfold run. apply fold_left_app. Qed.

(** The title-generation trigger does not write the store: it only
    starts a timer. *)
Lemma run_generateThreadTitle env message thread s :
  run (generateThreadTitle env message thread) s = s.
Proof.
  unfold generateThreadTitle.
  case_decide; [ destruct (activeModelRef env) | ]; reflexivity.
Qed.

(** Neither do the calls to the Conversational extension. *)
Lemma run_updateThread_saveThread env thread' thread s :
  threadsAtom (run (updateThread thread' :: withConversational env [ saveThread thread ]) s)
  = updateThreadIn thread' (threadsAtom s).
Proof. unfold withConversational. by destruct (conversational env). Qed.

(** ** Streaming updates (C4, C5, C7) *)

(** C4. A non-Summary update with status [Pending] first stores the
    content and status of the message. With an empty content that is
    all: the waiting flags and the generating flag are as before. With a
    non-empty content the waiting flag of the thread and the generating
    flag are cleared. Nothing else is called and no other cell of the
    store changes. *)
Theorem pending_update (env : Env) (message : ThreadMessage.t) (s : Store) :
  ThreadMessage.type message ≠ MessageRequestType.Summary →
  ThreadMessage.status message = MessageStatus.Pending →
  let thread_id := ThreadMessage.thread_id message in
  let stored :=
    updateMessage (ThreadMessage.id message) thread_id
      (ThreadMessage.content message) MessageStatus.Pending in
  let effects := onMessageResponseUpdate env message in
  let s' := run effects s in
  (ThreadMessage.content message = [] →
     effects = [ stored ]
     ∧ threadWaitingForResponse s' = threadWaitingForResponse s
     ∧ isGeneratingResponseAtom s' = isGeneratingResponseAtom s)
  ∧ (ThreadMessage.content message ≠ [] →
     effects = [ stored; updateThreadWaiting thread_id false;
                 setIsGeneratingResponse false ]
     ∧ threadWaitingForResponse s'
       = <[ thread_id := false ]> (threadWaitingForResponse s)
     ∧ isWaiting s' thread_id = false
     ∧ isGeneratingResponseAtom s' = false)
  ∧ chatMessages s'
    = alter (updateMessageIn (ThreadMessage.id message)
               (ThreadMessage.content message) MessageStatus.Pending)
        thread_id (chatMessages s)
  ∧ threadsAtom s' = threadsAtom s
  ∧ activeModelAtom s' = activeModelAtom s
  ∧ stateModelAtom s' = stateModelAtom s
  ∧ loadModelErrorAtom s' = loadModelErrorAtom s
  ∧ queuedMessageAtom s' = queuedMessageAtom s
  ∧ activeThreadId s' = activeThreadId s.
Proof.
  intros Htype Hstatus. cbn zeta.
  unfold onMessageResponseUpdate, updateThreadMessage.
  destruct (ThreadMessage.type message); [ | done ].
  rewrite Hstatus. rewrite decide_True by done.
  destruct (ThreadMessage.content message) as [ | part parts ]; cbn.
  - repeat split; done.
  - unfold isWaiting; cbn. rewrite lookup_insert_eq. repeat split; done.
Qed.

(** The spinner of the sample thread stays while the content is empty
    and goes with the first token. *)
Lemma pending_update_witness :
  ThreadMessage.type (Sample.answer MessageStatus.Pending []) ≠ MessageRequestType.Summary
  ∧ ThreadMessage.status (Sample.answer MessageStatus.Pending []) = MessageStatus.Pending
  ∧ isWaiting
      (run (onMessageResponseUpdate (Sample.env (js "New Thread"))
              (Sample.answer MessageStatus.Pending []))
           (Sample.store (js "New Thread")))
      (js "t1")
    = true
  ∧ isWaiting
      (run (onMessageResponseUpdate (Sample.env (js "New Thread"))
              (Sample.answer MessageStatus.Pending [ Sample.part (js "He") ]))
           (Sample.store (js "New Thread")))
      (js "t1")
    = false.
Proof.
  split; [ discriminate | ]. split; [ reflexivity | ]. split.
  - unfold isWaiting.
    destruct (pending_update (Sample.env (js "New Thread"))
                (Sample.answer MessageStatus.Pending [])
                (Sample.store (js "New Thread")))
      as ((_ & -> & _) & _); [ discriminate | reflexivity | reflexivity | ].
    reflexivity.
  - destruct (pending_update (Sample.env (js "New Thread"))
                (Sample.answer MessageStatus.Pending [ Sample.part (js "He") ])
                (Sample.store (js "New Thread")))
      as (_ & Hfull & _); [ discriminate | reflexivity | ].
    apply Hfull. discriminate.
Defined.

(** What a terminal non-Summary update leaves in the flags, whatever the
    lookup of the thread gives. *)
Lemma terminal_update_flags env message s :
  ThreadMessage.type message ≠ MessageRequestType.Summary →
  ThreadMessage.status message ≠ MessageStatus.Pending →
  let s' := run (onMessageResponseUpdate env message) s in
  threadWaitingForResponse s'
  = <[ ThreadMessage.thread_id message := false ]> (threadWaitingForResponse s)
  ∧ isGeneratingResponseAtom s' = false.
Proof.
  intros Htype Hstatus. cbn zeta.
  unfold onMessageResponseUpdate, updateThreadMessage.
  destruct (ThreadMessage.type message); [ | done ].
  rewrite decide_False by done.
  destruct (findThread _ _) as [ thread | ]; [ | done ].
  rewrite !app_comm_cons, !run_app, run_generateThreadTitle.
  unfold withConversational. by destruct (conversational env).
Qed.

(** C5. After a non-Summary update with a terminal status the waiting
    flag of the thread of the message and the generating flag are false,
    whatever they were. *)
Theorem terminal_update_clears (env : Env) (message : ThreadMessage.t)
  (s : Store) :
  ThreadMessage.type message ≠ MessageRequestType.Summary →
  ThreadMessage.status message ≠ MessageStatus.Pending →
  let s' := run (onMessageResponseUpdate env message) s in
  threadWaitingForResponse s' !! ThreadMessage.thread_id message = Some false
  ∧ isWaiting s' (ThreadMessage.thread_id message) = false
  ∧ isGeneratingResponseAtom s' = false.
Proof.
  intros Htype Hstatus s'.
  destruct (terminal_update_flags env message s Htype Hstatus) as [Hw Hg].
  fold s' in Hw, Hg. unfold isWaiting. rewrite Hw, lookup_insert_eq. done.
Qed.

Lemma terminal_update_clears_witness :
  ThreadMessage.type (Sample.answer MessageStatus.Error []) ≠ MessageRequestType.Summary
  ∧ ThreadMessage.status (Sample.answer MessageStatus.Error []) ≠ MessageStatus.Pending
  ∧ isWaiting (Sample.store (js "New Thread")) (js "t1") = true
  ∧ isGeneratingResponseAtom (Sample.store (js "New Thread")) = true
  ∧ isWaiting
      (run (onMessageResponseUpdate (Sample.env (js "New Thread"))
              (Sample.answer MessageStatus.Error []))
           (Sample.store (js "New Thread")))
      (js "t1")
    = false
  ∧ isGeneratingResponseAtom
      (run (onMessageResponseUpdate (Sample.env (js "New Thread"))
              (Sample.answer MessageStatus.Error []))
           (Sample.store (js "New Thread")))
    = false.
Proof.
  split; [ discriminate | ]. split; [ discriminate | ].
  split; [ reflexivity | ]. split; [ reflexivity | ].
  apply (terminal_update_clears (Sample.env (js "New Thread"))
           (Sample.answer MessageStatus.Error [])
           (Sample.store (js "New Thread")));
    discriminate.
Defined.

(** C7. A non-Summary update with a terminal status whose thread is not
    in the snapshot stores the content and status of the message and
    clears the two flags, and that is all: no thread is written, nothing
    goes to the Conversational extension, no timer is started. *)
Theorem terminal_update_lookup_miss (env : Env) (message : ThreadMessage.t)
  (s : Store) :
  ThreadMessage.type message ≠ MessageRequestType.Summary →
  ThreadMessage.status message ≠ MessageStatus.Pending →
  findThread (threadsRef env) (ThreadMessage.thread_id message) = None →
  let effects := onMessageResponseUpdate env message in
  let s' := run effects s in
  effects
  = [ updateMessage (ThreadMessage.id message) (ThreadMessage.thread_id message)
        (ThreadMessage.content message) (ThreadMessage.status message);
      updateThreadWaiting (ThreadMessage.thread_id message) false;
      setIsGeneratingResponse false ]
  ∧ chatMessages s'
    = alter (updateMessageIn (ThreadMessage.id message)
               (ThreadMessage.content message) (ThreadMessage.status message))
        (ThreadMessage.thread_id message) (chatMessages s)
  ∧ threadsAtom s' = threadsAtom s
  ∧ savedThreads effects = []
  ∧ timers effects = []
  ∧ emitted effects = [].
Proof.
  intros Htype Hstatus Hmiss. cbn zeta.
  unfold onMessageResponseUpdate, updateThreadMessage.
  destruct (ThreadMessage.type message); [ | done ].
  rewrite decide_False by done. rewrite Hmiss. done.
Qed.

(** The sample answer completes while the snapshot holds no thread. *)
Lemma terminal_update_lookup_miss_witness :
  ThreadMessage.type (Sample.answer MessageStatus.Ready [ Sample.part (js "Hello world") ])
  ≠ MessageRequestType.Summary
  ∧ ThreadMessage.status (Sample.answer MessageStatus.Ready [ Sample.part (js "Hello world") ])
    ≠ MessageStatus.Pending
  ∧ findThread (threadsRef Sample.detached) (js "t1") = None
  ∧ threadsAtom
      (run (onMessageResponseUpdate Sample.detached
              (Sample.answer MessageStatus.Ready [ Sample.part (js "Hello world") ]))
           (Sample.store (js "New Thread")))
    = [ Sample.thread (js "New Thread") ]
  ∧ timers (onMessageResponseUpdate Sample.detached
              (Sample.answer MessageStatus.Ready [ Sample.part (js "Hello world") ]))
    = [].
Proof.
  split; [ discriminate | ]. split; [ discriminate | ]. split; [ reflexivity | ].
  destruct (terminal_update_lookup_miss Sample.detached
              (Sample.answer MessageStatus.Ready [ Sample.part (js "Hello world") ])
              (Sample.store (js "New Thread")))
    as (_ & _ & Hthreads & _ & Htimers & _);
    [ discriminate | discriminate | reflexivity | ].
  split; [ exact Hthreads | exact Htimers ].
Defined.

(** ** The title-generation trigger (C3, C8) *)

(** The request that [generateThreadTitle] builds when its gate is
    open. *)
Lemma generateThreadTitle_fires env message thread activeModel :
  trim (Thread.title thread) = js "New Thread" →
  activeModelRef env = Some activeModel →
  generateThreadTitle env message thread
  = [ setTimeout
        (emitMessageSent
           {| MessageRequest.id := ulid env;
              MessageRequest.threadId := ThreadMessage.thread_id message;
              MessageRequest.type := MessageRequestType.Summary;
              MessageRequest.messages :=
                map (fun msg =>
                       {| ChatCompletionMessage.role := ThreadMessage.role msg;
                          ChatCompletionMessage.content :=
                            firstText (ThreadMessage.content msg) |})
                    (messagesRef env)
                ++ [ {| ChatCompletionMessage.role := ChatCompletionRole.User;
                        ChatCompletionMessage.content := Some summarizeFirstPrompt |} ];
              MessageRequest.model :=
                {| Model.id := Model.id activeModel;
                   Model.parameters := {[ js "stream" := VBool false ]};
                   Model.rest := Model.rest activeModel |} |})
        1000 ].
Proof.
  intros Htitle Hmodel. unfold generateThreadTitle.
  rewrite decide_True by done. by rewrite Hmodel.
Qed.

Lemma generateThreadTitle_gate env message thread :
  trim (Thread.title thread) ≠ js "New Thread" ∨ activeModelRef env = None →
  generateThreadTitle env message thread = [].
Proof.
  intros [Htitle | Hmodel]; unfold generateThreadTitle.
  - by rewrite decide_False.
  - rewrite Hmodel. by case_decide.
Qed.

(** The timers of a terminal non-Summary update are those of the
    trigger. *)
Lemma terminal_update_timers env message thread :
  ThreadMessage.type message ≠ MessageRequestType.Summary →
  ThreadMessage.status message ≠ MessageStatus.Pending →
  findThread (threadsRef env) (ThreadMessage.thread_id message) = Some thread →
  timers (onMessageResponseUpdate env message)
  = timers (generateThreadTitle env message thread).
Proof.
  intros Htype Hstatus Hfound.
  unfold onMessageResponseUpdate, updateThreadMessage.
  destruct (ThreadMessage.type message); [ | done ].
  rewrite decide_False by done. rewrite Hfound.
  unfold withConversational. by destruct (conversational env).
Qed.




(** C8, as stated, fails: the gate compares the trimmed title, so a
    title that differs from "New Thread" by surrounding white space
    still lets the trigger emit a request. *)
Lemma padded_title_triggers :
  ThreadMessage.type (Sample.answer MessageStatus.Ready [ Sample.part (js "Hello world") ])
  ≠ MessageRequestType.Summary
  ∧ ThreadMessage.status (Sample.answer MessageStatus.Ready [ Sample.part (js "Hello world") ])
    ≠ MessageStatus.Pending
  ∧ findThread (threadsRef (Sample.env (js " New Thread"))) (js "t1")
    = Some (Sample.thread (js " New Thread"))
  ∧ Thread.title (Sample.thread (js " New Thread")) ≠ js "New Thread"
  ∧ length (emitted (onMessageResponseUpdate (Sample.env (js " New Thread"))
                       (Sample.answer MessageStatus.Ready [ Sample.part (js "Hello world") ])))
    = 1%nat.
Proof. repeat split; discriminate. Qed.

(** C8, amended. A terminal non-Summary message for a thread of the
    snapshot whose title, once trimmed, is not "New Thread", or that
    arrives while no active model is set, starts no timer and emits no
    request. *)
Theorem title_trigger_gate (env : Env) (message : ThreadMessage.t)
  (thread : Thread.t) :
  ThreadMessage.type message ≠ MessageRequestType.Summary →
  ThreadMessage.status message ≠ MessageStatus.Pending →
  findThread (threadsRef env) (ThreadMessage.thread_id message) = Some thread →
  trim (Thread.title thread) ≠ js "New Thread" ∨ activeModelRef env = None →
  generateThreadTitle env message thread = []
  ∧ timers (onMessageResponseUpdate env message) = []
  ∧ emitted (onMessageResponseUpdate env message) = [].
Proof.
  intros Htype Hstatus Hfound Hgate.
  pose proof (generateThreadTitle_gate env message thread Hgate) as Hnone.
  assert (Htimers : timers (onMessageResponseUpdate env message) = []).
  { rewrite (terminal_update_timers env message thread) by done.
    by rewrite Hnone. }
  split; [ done | ]. split; [ done | ].
  unfold emitted. by rewrite Htimers.
Qed.

Lemma title_trigger_gate_witness :
  ThreadMessage.type (Sample.answer MessageStatus.Ready [ Sample.part (js "Hello world") ])
  ≠ MessageRequestType.Summary
  ∧ ThreadMessage.status (Sample.answer MessageStatus.Ready [ Sample.part (js "Hello world") ])
    ≠ MessageStatus.Pending
  ∧ findThread (threadsRef (Sample.env (js "Trip to Rome"))) (js "t1")
    = Some (Sample.thread (js "Trip to Rome"))
  ∧ trim (Thread.title (Sample.thread (js "Trip to Rome"))) ≠ js "New Thread"
  ∧ emitted (onMessageResponseUpdate (Sample.env (js "Trip to Rome"))
               (Sample.answer MessageStatus.Ready [ Sample.part (js "Hello world") ]))
    = [].
Proof.
  split; [ discriminate | ]. split; [ discriminate | ].
  split; [ reflexivity | ]. split; [ discriminate | ].
  apply (title_trigger_gate (Sample.env (js "Trip to Rome"))
           (Sample.answer MessageStatus.Ready [ Sample.part (js "Hello world") ])
           (Sample.thread (js "Trip to Rome")));
    [ discriminate | discriminate | reflexivity | left; discriminate ].
Defined.

(** ** The model events (C9) *)

(** C9. After a load failure followed by the readiness of a model, the
    active model is the model of the second event and the load status is
    [{state: stop, loading: false, model: id}] with its id; the handler
    of the second event does not write the load error, which stays the
    text recorded by the first. *)
Theorem ready_after_failure (env : Env) (res : ModelFailure.t)
  (model : Model.t) (s : Store) :
  let failed := feed env [ OnModelFail res ] s in
  let s' := feed env [ OnModelFail res; OnModelReady model ] s in
  activeModelAtom s' = Some model
  ∧ stateModelAtom s'
    = {| ModelState.state := ModelState.stop;
         ModelState.loading := false;
         ModelState.model := Model.id model |}
  ∧ loadModelErrorAtom s' = loadModelErrorAtom failed
  ∧ loadModelErrorAtom s' = Some (ToString (ModelFailure.error res))
  ∧ stateModelAtom failed
    = {| ModelState.state := ModelState.start;
         ModelState.loading := false;
         ModelState.model := ModelFailure.modelId res |}.
Proof. repeat split. Qed.

(** ** The title update (C1, C2, C10) *)

Lemma findThread_id threads thread_id thread :
  findThread threads thread_id = Some thread → Thread.id thread = thread_id.
Proof.
  unfold findThread. intros Hfound.
  apply find_some in Hfound as [_ Hid]. by apply bool_decide_eq_true in Hid.
Qed.

(** Looking a thread up after [updateThreadAtom] wrote [thread']: the
    lookup finds the record at the same place, replaced if it has the id
    of [thread']. *)
Lemma findThread_updateThreadIn thread' threads thread_id :
  findThread (updateThreadIn thread' threads) thread_id
  = (fun c => if bool_decide (Thread.id c = Thread.id thread') then thread' else c)
      <$> findThread threads thread_id.
Proof.
  unfold findThread, updateThreadIn.
  induction threads as [ | c threads IH ]; [ done | ]. cbn.
  destruct (bool_decide (Thread.id c = Thread.id thread')) eqn:Hc.
  - assert (Hsame : bool_decide (Thread.id thread' = thread_id)
                    = bool_decide (Thread.id c = thread_id)).
    { apply bool_decide_eq_true in Hc. by rewrite Hc. }
    rewrite Hsame.
    destruct (bool_decide (Thread.id c = thread_id)); cbn.
    + by rewrite Hc.
    + exact IH.
  - destruct (bool_decide (Thread.id c = thread_id)); cbn.
    + by rewrite Hc.
    + exact IH.
Qed.

(** The effects of the title update, by the tests of the source. *)
Lemma updateThreadTitle_cases env message :
  updateThreadTitle env message = []
  ∨ ∃ thread text,
      ThreadMessage.status message ≠ MessageStatus.Pending
      ∧ findThread (threadsRef env) (ThreadMessage.thread_id message) = Some thread
      ∧ firstText (ThreadMessage.content message) = Some text
      ∧ text ≠ []
      ∧ updateThreadTitle env message
        = updateThread
            {| Thread.id := Thread.id thread;
               Thread.title := text;
               Thread.metadata := Thread.metadata thread;
               Thread.rest := Thread.rest thread |}
          :: withConversational env [ saveThread thread ].
Proof.
  unfold updateThreadTitle.
  case_decide; [ by left | ].
  destruct (findThread _ _) as [ thread | ]; [ | by left ].
  destruct (firstText _) as [ [ | c text ] | ]; [ by left | | by left ].
  right. exists thread, (c :: text). done.
Qed.

Lemma updateThreadTitle_fires env message thread text :
  ThreadMessage.status message ≠ MessageStatus.Pending →
  findThread (threadsRef env) (ThreadMessage.thread_id message) = Some thread →
  firstText (ThreadMessage.content message) = Some text →
  text ≠ [] →
  updateThreadTitle env message
  = updateThread
      {| Thread.id := Thread.id thread;
         Thread.title := text;
         Thread.metadata := Thread.metadata thread;
         Thread.rest := Thread.rest thread |}
    :: withConversational env [ saveThread thread ].
Proof.
  intros Hstatus Hfound Htext Hne. unfold updateThreadTitle.
  rewrite decide_False by done. rewrite Hfound, Htext.
  by destruct text.
Qed.

(** The thread list after a completed Summary response was delivered. *)
Lemma deliver_summary env s message thread text :
  ThreadMessage.type message = MessageRequestType.Summary →
  ThreadMessage.status message ≠ MessageStatus.Pending →
  findThread (threadsAtom s) (ThreadMessage.thread_id message) = Some thread →
  firstText (ThreadMessage.content message) = Some text →
  text ≠ [] →
  findThread (threadsAtom (deliver env s (OnMessageUpdate message)))
    (ThreadMessage.thread_id message)
  = Some {| Thread.id := Thread.id thread;
            Thread.title := text;
            Thread.metadata := Thread.metadata thread;
            Thread.rest := Thread.rest thread |}.
Proof.
  intros Htype Hstatus Hfound Htext Hne.
  unfold deliver, handle, onMessageResponseUpdate. rewrite Htype.
  rewrite (updateThreadTitle_fires _ message thread text) by done.
  rewrite run_updateThread_saveThread, findThread_updateThreadIn, Hfound.
  cbn. by rewrite bool_decide_true.
Qed.

(** C1, as stated, fails: the title update does not look at the current
    title. Of two completed Summary responses for one thread the second
    changes the title again, although the title is no longer
    "New Thread". *)
Lemma second_summary_changes_title :
  Thread.title
    <$> findThread
          (threadsAtom
             (feed (Sample.env (js "New Thread"))
                [ OnMessageUpdate (Sample.summary (js "Trip to Rome")) ]
                (Sample.store (js "New Thread"))))
          (js "t1")
  = Some (js "Trip to Rome")
  ∧ Thread.title
      <$> findThread
            (threadsAtom
               (feed (Sample.env (js "New Thread"))
                  [ OnMessageUpdate (Sample.summary (js "Trip to Rome"));
                    OnMessageUpdate (Sample.summary (js "Roman holiday")) ]
                  (Sample.store (js "New Thread"))))
            (js "t1")
    = Some (js "Roman holiday")
  ∧ js "Trip to Rome" ≠ js "New Thread"
  ∧ js "Roman holiday" ≠ js "Trip to Rome".
Proof. repeat split; discriminate. Qed.

(** C1, amended. The gate on the title guards the request for a title,
    not the title update: each completed Summary response whose thread
    is in the snapshot and whose first text is not empty sets the title
    to that text, so after two such responses for one thread the title
    is the text of the second. Once the trimmed title is not
    "New Thread", a completed message requests no further title. *)
Theorem summary_sets_title_each_time (env : Env) (s : Store)
  (first second : ThreadMessage.t) (thread : Thread.t) (text1 text2 : jsstring) :
  ThreadMessage.type first = MessageRequestType.Summary →
  ThreadMessage.type second = MessageRequestType.Summary →
  ThreadMessage.status first ≠ MessageStatus.Pending →
  ThreadMessage.status second ≠ MessageStatus.Pending →
  ThreadMessage.thread_id second = ThreadMessage.thread_id first →
  findThread (threadsAtom s) (ThreadMessage.thread_id first) = Some thread →
  firstText (ThreadMessage.content first) = Some text1 → text1 ≠ [] →
  firstText (ThreadMessage.content second) = Some text2 → text2 ≠ [] →
  let thread_id := ThreadMessage.thread_id first in
  let s1 := feed env [ OnMessageUpdate first ] s in
  let s2 := feed env [ OnMessageUpdate first; OnMessageUpdate second ] s in
  Thread.title <$> findThread (threadsAtom s1) thread_id = Some text1
  ∧ Thread.title <$> findThread (threadsAtom s2) thread_id = Some text2
  ∧ (trim text2 ≠ js "New Thread" →
     ∀ env' message thread',
       findThread (threadsAtom s2) thread_id = Some thread' →
       generateThreadTitle env' message thread' = []).
Proof.
  intros Htype1 Htype2 Hstatus1 Hstatus2 Hsame Hfound Htext1 Hne1 Htext2 Hne2.
  cbn zeta. unfold feed. cbn [fold_left].
  pose proof (deliver_summary env s first thread text1
                Htype1 Hstatus1 Hfound Htext1 Hne1) as Hfirst.
  rewrite <- Hsame in Hfirst |- *.
  pose proof (deliver_summary env _ second _ text2
                Htype2 Hstatus2 Hfirst Htext2 Hne2) as Hsecond.
  rewrite Hfirst, Hsecond. split; [ done | ]. split; [ done | ].
  intros Htrim env' message thread' [= <-].
  apply generateThreadTitle_gate. by left.
Qed.

Lemma summary_sets_title_each_time_witness :
  findThread (threadsAtom (Sample.store (js "New Thread"))) (js "t1")
  = Some (Sample.thread (js "New Thread"))
  ∧ Thread.title
      <$> findThread
            (threadsAtom
               (feed (Sample.env (js "New Thread"))
                  [ OnMessageUpdate (Sample.summary (js "Trip to Rome"));
                    OnMessageUpdate (Sample.summary (js "Roman holiday")) ]
                  (Sample.store (js "New Thread"))))
            (js "t1")
    = Some (js "Roman holiday").
Proof.
  split; [ reflexivity | ].
  refine (proj1 (proj2 (summary_sets_title_each_time (Sample.env (js "New Thread"))
                          (Sample.store (js "New Thread"))
                          (Sample.summary (js "Trip to Rome"))
                          (Sample.summary (js "Roman holiday"))
                          (Sample.thread (js "New Thread"))
                          (js "Trip to Rome") (js "Roman holiday")
                          eq_refl eq_refl _ _ eq_refl eq_refl eq_refl _ eq_refl _)));
    discriminate.
Defined.

(** C2, what the code does. A Summary update with status [Pending] has
    no effect. A completed one whose thread is in the snapshot and whose
    first text is not empty writes the thread with that text as title and
    the metadata and other fields as in the snapshot; the record handed
    to [saveThread] is the thread of the snapshot, with the title it had
    before. *)
Theorem summary_update_saves_snapshot (env : Env) (message : ThreadMessage.t) :
  ThreadMessage.type message = MessageRequestType.Summary →
  (ThreadMessage.status message = MessageStatus.Pending →
     onMessageResponseUpdate env message = [])
  ∧ (∀ thread text,
       ThreadMessage.status message ≠ MessageStatus.Pending →
       findThread (threadsRef env) (ThreadMessage.thread_id message) = Some thread →
       firstText (ThreadMessage.content message) = Some text →
       text ≠ [] →
       conversational env = true →
       onMessageResponseUpdate env message
       = [ updateThread
             {| Thread.id := Thread.id thread;
                Thread.title := text;
                Thread.metadata := Thread.metadata thread;
                Thread.rest := Thread.rest thread |};
           saveThread thread ]
       ∧ savedThreads (onMessageResponseUpdate env message) = [ thread ]).
Proof.
  intros Htype. unfold onMessageResponseUpdate. rewrite Htype. split.
  - intros Hpending. unfold updateThreadTitle. by rewrite decide_True.
  - intros thread text Hstatus Hfound Htext Hne Hext.
    rewrite (updateThreadTitle_fires env message thread text) by done.
    unfold withConversational. by rewrite Hext.
Qed.

(** The failing input: the summary "Trip to Rome" for the sample thread
    called "New Thread". The store gets the new title, [saveThread] gets
    the old one. *)
Lemma summary_update_saves_snapshot_witness :
  ThreadMessage.type (Sample.summary (js "Trip to Rome")) = MessageRequestType.Summary
  ∧ Thread.title
      <$> savedThreads (onMessageResponseUpdate (Sample.env (js "New Thread"))
                          (Sample.summary (js "Trip to Rome")))
    = [ js "New Thread" ]
  ∧ Thread.title
      <$> threadsAtom (deliver (Sample.env (js "New Thread"))
                         (Sample.store (js "New Thread"))
                         (OnMessageUpdate (Sample.summary (js "Trip to Rome"))))
    = [ js "Trip to Rome" ].
Proof.
  split; [ reflexivity | ]. split; [ | reflexivity ].
  destruct (summary_update_saves_snapshot (Sample.env (js "New Thread"))
              (Sample.summary (js "Trip to Rome")) eq_refl) as [_ Hsaved].
  destruct (Hsaved (Sample.thread (js "New Thread")) (js "Trip to Rome")) as [_ ->];
    [ discriminate | reflexivity | reflexivity | discriminate | reflexivity | ].
  reflexivity.
Defined.

(** C10, as stated, fails when the snapshot is older than the store.
    After the answer "Hello world" completed, [lastMessage] of the
    thread is "Hello world" in the store; a Summary update handled
    before the refs were refreshed finds the thread with [lastMessage]
    "Hi" and writes it, under the new title, over the thread of the
    store: the metadata of the thread changes with the title. *)
Lemma stale_summary_rewrites_metadata :
  threadMetadata (Sample.answered (js "New Thread")) (js "t1") (js "lastMessage")
  = Some (VStr (js "Hello world"))
  ∧ threadMetadata
      (run (onMessageResponseUpdate (Sample.env (js "New Thread"))
              (Sample.summary (js "Trip to Rome")))
           (Sample.answered (js "New Thread")))
      (js "t1") (js "lastMessage")
    = Some (VStr (js "Hi"))
  ∧ Thread.title
      <$> findThread
            (threadsAtom
               (run (onMessageResponseUpdate (Sample.env (js "New Thread"))
                       (Sample.summary (js "Trip to Rome")))
                    (Sample.answered (js "New Thread"))))
            (js "t1")
    = Some (js "Trip to Rome").
Proof. repeat split. Qed.

(** C10, amended. A Summary update goes to the title update and nowhere
    else. The title update calls at most [updateThread], with the thread
    it found in the snapshot under a new title and with the id, metadata
    and other fields of the snapshot, and [saveThread]. Whatever the
    snapshot, it leaves the messages, the waiting flags, the generating
    flag, the queued-message flag, the model cells and the current
    thread as they were, it adds and removes no thread, and it leaves
    the threads of other ids as they were. When the snapshot is the
    thread list of the store, every thread keeps its metadata and other
    fields: the title is all that changes. *)
Theorem summary_update_frame (env : Env) (message : ThreadMessage.t)
  (s : Store) :
  ThreadMessage.type message = MessageRequestType.Summary →
  let s' := run (onMessageResponseUpdate env message) s in
  onMessageResponseUpdate env message = updateThreadTitle env message
  ∧ (updateThreadTitle env message = []
     ∨ ∃ thread text,
         findThread (threadsRef env) (ThreadMessage.thread_id message) = Some thread
         ∧ updateThreadTitle env message
           = updateThread
               {| Thread.id := Thread.id thread;
                  Thread.title := text;
                  Thread.metadata := Thread.metadata thread;
                  Thread.rest := Thread.rest thread |}
             :: withConversational env [ saveThread thread ])
  ∧ chatMessages s' = chatMessages s
  ∧ threadWaitingForResponse s' = threadWaitingForResponse s
  ∧ isGeneratingResponseAtom s' = isGeneratingResponseAtom s
  ∧ queuedMessageAtom s' = queuedMessageAtom s
  ∧ activeModelAtom s' = activeModelAtom s
  ∧ stateModelAtom s' = stateModelAtom s
  ∧ loadModelErrorAtom s' = loadModelErrorAtom s
  ∧ activeThreadId s' = activeThreadId s
  ∧ length (threadsAtom s') = length (threadsAtom s)
  ∧ (∀ thread_id,
       Thread.id <$> findThread (threadsAtom s') thread_id
       = Thread.id <$> findThread (threadsAtom s) thread_id)
  ∧ (∀ other,
       other ≠ ThreadMessage.thread_id message →
       findThread (threadsAtom s') other = findThread (threadsAtom s) other)
  ∧ (threadsRef env = threadsAtom s →
     ∀ thread_id,
       Thread.metadata <$> findThread (threadsAtom s') thread_id
       = Thread.metadata <$> findThread (threadsAtom s) thread_id
       ∧ Thread.rest <$> findThread (threadsAtom s') thread_id
         = Thread.rest <$> findThread (threadsAtom s) thread_id).
Proof.
  intros Htype s'.
  split; [ unfold onMessageResponseUpdate; by rewrite Htype | ].
  split.
  { destruct (updateThreadTitle_cases env message)
      as [ Hnone | (thread & text & _ & Hfound & _ & _ & Hfires) ];
      [ by left | right; by exists thread, text ]. }
  subst s'. unfold onMessageResponseUpdate. rewrite Htype.
  destruct (updateThreadTitle_cases env message)
    as [ -> | (thread & text & _ & Hfound & _ & _ & ->) ].
  { repeat split. }
  assert (Hcells : ∀ thread',
    let s' := run (updateThread thread'
                   :: withConversational env [ saveThread thread ]) s in
    chatMessages s' = chatMessages s
    ∧ threadWaitingForResponse s' = threadWaitingForResponse s
    ∧ isGeneratingResponseAtom s' = isGeneratingResponseAtom s
    ∧ queuedMessageAtom s' = queuedMessageAtom s
    ∧ activeModelAtom s' = activeModelAtom s
    ∧ stateModelAtom s' = stateModelAtom s
    ∧ loadModelErrorAtom s' = loadModelErrorAtom s
    ∧ activeThreadId s' = activeThreadId s).
  { intros thread'. unfold withConversational.
    destruct (conversational _); repeat split. }
  destruct (Hcells {| Thread.id := Thread.id thread;
                      Thread.title := text;
                      Thread.metadata := Thread.metadata thread;
                      Thread.rest := Thread.rest thread |})
    as (? & ? & ? & ? & ? & ? & ? & ?).
  repeat (split; [ assumption | ]).
  rewrite run_updateThread_saveThread.
  pose proof (findThread_id _ _ _ Hfound) as Hthread.
  split; [ unfold updateThreadIn; by rewrite length_map | ].
  split; [ | split ].
  - intros thread_id. rewrite findThread_updateThreadIn.
    destruct (findThread (threadsAtom s) thread_id) as [ c | ]; [ | done ].
    cbn. case_bool_decide as Hid; [ | done ]. cbn in Hid |- *. by rewrite Hid.
  - intros other Hother. rewrite findThread_updateThreadIn.
    destruct (findThread (threadsAtom s) other) as [ c | ] eqn:Hc; [ | done ].
    cbn. case_bool_decide as Hid; [ | done ]. cbn in Hid.
    pose proof (findThread_id _ _ _ Hc) as Hcid. congruence.
  - intros Hfresh thread_id. rewrite findThread_updateThreadIn.
    rewrite Hfresh in Hfound.
    destruct (findThread (threadsAtom s) thread_id) as [ c | ] eqn:Hc; [ | done ].
    cbn. case_bool_decide as Hid; [ | done ]. cbn in Hid |- *.
    assert (c = thread) as ->; [ | done ].
    pose proof (findThread_id _ _ _ Hc) as Hcid.
    assert (thread_id = ThreadMessage.thread_id message) as ->
      by (rewrite <- Hcid, <- Hthread; exact Hid).
    congruence.
Qed.

(** The summary "Trip to Rome" for the sample thread, the snapshot being
    the thread list of the store: the thread is the one of the store
    under its new title. *)
Lemma summary_update_frame_witness :
  ThreadMessage.type (Sample.summary (js "Trip to Rome")) = MessageRequestType.Summary
  ∧ threadsRef (Sample.env (js "New Thread"))
    = threadsAtom (Sample.store (js "New Thread"))
  ∧ threadsAtom
      (run (onMessageResponseUpdate (Sample.env (js "New Thread"))
              (Sample.summary (js "Trip to Rome")))
           (Sample.store (js "New Thread")))
    = [ Sample.thread (js "Trip to Rome") ]
  ∧ Thread.metadata
      <$> findThread
            (threadsAtom
               (run (onMessageResponseUpdate (Sample.env (js "New Thread"))
                       (Sample.summary (js "Trip to Rome")))
                    (Sample.store (js "New Thread"))))
            (js "t1")
    = Thread.metadata
        <$> findThread (threadsAtom (Sample.store (js "New Thread"))) (js "t1").
Proof.
  split; [ reflexivity | ]. split; [ reflexivity | ]. split; [ reflexivity | ].
  destruct (summary_update_frame (Sample.env (js "New Thread"))
              (Sample.summary (js "Trip to Rome"))
              (Sample.store (js "New Thread")) eq_refl)
    as (_ & _ & _ & _ & _ & _ & _ & _ & _ & _ & _ & _ & _ & Hfresh).
  apply (Hfresh eq_refl (js "t1")).
Defined.

(** ** A streamed message (C6) *)

Lemma update_chatMessages env message s :
  ThreadMessage.type message ≠ MessageRequestType.Summary →
  chatMessages (run (onMessageResponseUpdate env message) s)
  = alter (updateMessageIn (ThreadMessage.id message)
             (ThreadMessage.content message) (ThreadMessage.status message))
      (ThreadMessage.thread_id message) (chatMessages s).
Proof.
  intros Htype. unfold onMessageResponseUpdate, updateThreadMessage.
  destruct (ThreadMessage.type message); [ | done ].
  case_decide.
  - by destruct (ThreadMessage.content message).
  - destruct (findThread _ _) as [ thread | ]; [ | done ].
    rewrite !app_comm_cons, !run_app, run_generateThreadTitle.
    unfold withConversational. by destruct (conversational env).
Qed.

Lemma update_waiting env message s :
  ThreadMessage.type message ≠ MessageRequestType.Summary →
  ThreadMessage.content message ≠ [] →
  threadWaitingForResponse (run (onMessageResponseUpdate env message) s)
  = <[ ThreadMessage.thread_id message := false ]> (threadWaitingForResponse s).
Proof.
  intros Htype Hcontent.
  destruct (decide (ThreadMessage.status message = MessageStatus.Pending))
    as [ Hpending | Hterminal ].
  - unfold onMessageResponseUpdate, updateThreadMessage.
    destruct (ThreadMessage.type message); [ | done ].
    rewrite decide_True by done.
    by destruct (ThreadMessage.content message).
  - by apply terminal_update_flags.
Qed.

(** Reading a message back after [updateMessageAtom] wrote it. *)
Lemma find_updateMessageIn id content status messages :
  find (fun m => bool_decide (ThreadMessage.id m = id))
       (updateMessageIn id content status messages)
  = (fun m =>
       {| ThreadMessage.id := ThreadMessage.id m;
          ThreadMessage.thread_id := ThreadMessage.thread_id m;
          ThreadMessage.role := ThreadMessage.role m;
          ThreadMessage.content := content;
          ThreadMessage.status := status;
          ThreadMessage.type := ThreadMessage.type m |})
      <$> find (fun m => bool_decide (ThreadMessage.id m = id)) messages.
Proof.
  induction messages as [ | m messages IH ]; [ done | ]. cbn.
  destruct (bool_decide (ThreadMessage.id m = id)) eqn:Hm; cbn.
  - by rewrite Hm.
  - by rewrite Hm.
Qed.

Lemma update_storedMessage env message s stored :
  ThreadMessage.type message ≠ MessageRequestType.Summary →
  storedMessage s (ThreadMessage.id message) (ThreadMessage.thread_id message)
  = Some stored →
  storedMessage (run (onMessageResponseUpdate env message) s)
    (ThreadMessage.id message) (ThreadMessage.thread_id message)
  = Some {| ThreadMessage.id := ThreadMessage.id stored;
            ThreadMessage.thread_id := ThreadMessage.thread_id stored;
            ThreadMessage.role := ThreadMessage.role stored;
            ThreadMessage.content := ThreadMessage.content message;
            ThreadMessage.status := ThreadMessage.status message;
            ThreadMessage.type := ThreadMessage.type stored |}.
Proof.
  intros Htype Hstored. unfold storedMessage in *.
  rewrite update_chatMessages by done. rewrite lookup_alter_eq.
  destruct (chatMessages s !! ThreadMessage.thread_id message)
    as [ messages | ]; [ | done ].
  cbn in *. by rewrite find_updateMessageIn, Hstored.
Qed.

(** The setter of the waiting flag is called by every non-Summary update
    that has content, whatever its status. *)
Lemma update_calls_updateThreadWaiting env message :
  ThreadMessage.type message ≠ MessageRequestType.Summary →
  ThreadMessage.content message ≠ [] →
  updateThreadWaiting (ThreadMessage.thread_id message) false
  ∈ onMessageResponseUpdate env message.
Proof.
  intros Htype Hcontent. unfold onMessageResponseUpdate, updateThreadMessage.
  destruct (ThreadMessage.type message); [ | done ].
  case_decide.
  - destruct (ThreadMessage.content message); [ done | ].
    apply list_elem_of_further, list_elem_of_here.
  - apply list_elem_of_further, list_elem_of_here.
Qed.

(** C6. The updates [Pending "He"], [Pending "Hello"], [Ready
    "Hello world"] of one stored message, delivered in that order to a
    store in which its thread is waiting: the waiting flag goes from
    true to false once, at the first update, and the stored message ends
    with the content "Hello world" and the status [Ready]. *)
Theorem streaming_round_trip (env : Env) (s : Store) (base : ThreadMessage.t) :
  ThreadMessage.type base ≠ MessageRequestType.Summary →
  isWaiting s (ThreadMessage.thread_id base) = true →
  is_Some (storedMessage s (ThreadMessage.id base) (ThreadMessage.thread_id base)) →
  let id := ThreadMessage.id base in
  let thread_id := ThreadMessage.thread_id base in
  let e1 := OnMessageUpdate (streamed base MessageStatus.Pending (js "He")) in
  let e2 := OnMessageUpdate (streamed base MessageStatus.Pending (js "Hello")) in
  let e3 := OnMessageUpdate (streamed base MessageStatus.Ready (js "Hello world")) in
  let s1 := feed env [ e1 ] s in
  let s2 := feed env [ e1; e2 ] s in
  let s3 := feed env [ e1; e2; e3 ] s in
  isWaiting s1 thread_id = false
  ∧ clearings [ isWaiting s thread_id; isWaiting s1 thread_id;
                isWaiting s2 thread_id; isWaiting s3 thread_id ] = 1%nat
  ∧ ∃ stored,
      storedMessage s3 id thread_id = Some stored
      ∧ ThreadMessage.content stored
        = [ ThreadContent.mk (ContentValue.mk (js "Hello world") []) ]
      ∧ firstText (ThreadMessage.content stored) = Some (js "Hello world")
      ∧ ThreadMessage.status stored = MessageStatus.Ready.
Proof.
  intros Htype Hwaiting [stored Hstored]. cbn zeta.
  unfold feed. cbn [fold_left]. unfold deliver, handle.
  set (m1 := streamed base MessageStatus.Pending (js "He")).
  set (m2 := streamed base MessageStatus.Pending (js "Hello")).
  set (m3 := streamed base MessageStatus.Ready (js "Hello world")).
  set (s1 := run (onMessageResponseUpdate (refresh s env) m1) s).
  set (s2 := run (onMessageResponseUpdate (refresh s1 env) m2) s1).
  set (s3 := run (onMessageResponseUpdate (refresh s2 env) m3) s2).
  assert (Hw1 : isWaiting s1 (ThreadMessage.thread_id base) = false).
  { unfold isWaiting, s1.
    rewrite (update_waiting _ m1) by done. cbn. by rewrite lookup_insert_eq. }
  assert (Hw2 : isWaiting s2 (ThreadMessage.thread_id base) = false).
  { unfold isWaiting, s2.
    rewrite (update_waiting _ m2) by done. cbn. by rewrite lookup_insert_eq. }
  assert (Hw3 : isWaiting s3 (ThreadMessage.thread_id base) = false).
  { unfold isWaiting, s3.
    rewrite (update_waiting _ m3) by done. cbn. by rewrite lookup_insert_eq. }
  split; [ exact Hw1 | ]. split.
  { rewrite Hwaiting, Hw1, Hw2, Hw3. reflexivity. }
  pose proof (update_storedMessage (refresh s env) m1 s stored Htype Hstored) as H1.
  pose proof (update_storedMessage (refresh s1 env) m2 s1 _ Htype H1) as H2.
  pose proof (update_storedMessage (refresh s2 env) m3 s2 _ Htype H2) as H3.
  eexists. split; [ exact H3 | ]. done.
Qed.

Lemma streaming_round_trip_witness :
  ThreadMessage.type (Sample.answer MessageStatus.Pending []) ≠ MessageRequestType.Summary
  ∧ isWaiting (Sample.store (js "New Thread")) (js "t1") = true
  ∧ storedMessage (Sample.store (js "New Thread")) (js "m1") (js "t1")
    = Some (Sample.answer MessageStatus.Pending [])
  ∧ clearings
      [ isWaiting (Sample.store (js "New Thread")) (js "t1");
        isWaiting
          (feed (Sample.env (js "New Thread"))
             [ OnMessageUpdate
                 (streamed (Sample.answer MessageStatus.Pending [])
                    MessageStatus.Pending (js "He")) ]
             (Sample.store (js "New Thread"))) (js "t1");
        isWaiting
          (feed (Sample.env (js "New Thread"))
             [ OnMessageUpdate
                 (streamed (Sample.answer MessageStatus.Pending [])
                    MessageStatus.Pending (js "He"));
               OnMessageUpdate
                 (streamed (Sample.answer MessageStatus.Pending [])
                    MessageStatus.Pending (js "Hello")) ]
             (Sample.store (js "New Thread"))) (js "t1");
        isWaiting
          (feed (Sample.env (js "New Thread"))
             [ OnMessageUpdate
                 (streamed (Sample.answer MessageStatus.Pending [])
                    MessageStatus.Pending (js "He"));
               OnMessageUpdate
                 (streamed (Sample.answer MessageStatus.Pending [])
                    MessageStatus.Pending (js "Hello"));
               OnMessageUpdate
                 (streamed (Sample.answer MessageStatus.Pending [])
                    MessageStatus.Ready (js "Hello world")) ]
             (Sample.store (js "New Thread"))) (js "t1") ]
    = 1%nat.
Proof.
  assert (Htype : ThreadMessage.type (Sample.answer MessageStatus.Pending [])
                  ≠ MessageRequestType.Summary) by discriminate.
  split; [ exact Htype | ]. split; [ reflexivity | ]. split; [ reflexivity | ].
  apply (streaming_round_trip (Sample.env (js "New Thread"))
           (Sample.store (js "New Thread"))
           (Sample.answer MessageStatus.Pending []) Htype eq_refl
           (ex_intro _ (Sample.answer MessageStatus.Pending []) eq_refl)).
Defined.

(** * Beyond the claims *)

(** ** The gate on the title and [trim] *)

Lemma trimStart_white pre :
  Forall (fun c => is_white_space c = true) pre → trimStart pre = [].
Proof. induction 1 as [ | c pre Hc _ IH ]; cbn; [ done | by rewrite Hc ]. Qed.

Lemma trimStart_app_white pre s :
  Forall (fun c => is_white_space c = true) pre →
  trimStart (pre ++ s) = trimStart s.
Proof. induction 1 as [ | c pre Hc _ IH ]; cbn; [ done | by rewrite Hc ]. Qed.

(** [trimStart] stops at the first code unit that is not white space. *)
Lemma trimStart_app s post :
  trimStart (s ++ post)
  = match trimStart s with
    | [] => trimStart post
    | _ :: _ => trimStart s ++ post
    end.
Proof.
  induction s as [ | c s IH ]; cbn.
  - by destruct (trimStart post).
  - destruct (is_white_space c); [ exact IH | done ].
Qed.

Lemma trimStart_head s c :
  head (trimStart s) = Some c → is_white_space c = false.
Proof.
  induction s as [ | d s IH ]; cbn; [ done | ].
  destruct (is_white_space d) eqn:Hd; [ exact IH | ].
  cbn. by intros [= <-].
Qed.

Lemma trimStart_clean s :
  (∀ c, head s = Some c → is_white_space c = false) → trimStart s = s.
Proof.
  destruct s as [ | c s ]; cbn; [ done | ].
  intros Hclean. by rewrite (Hclean c).
Qed.

Lemma trimEnd_app_white s post :
  Forall (fun c => is_white_space c = true) post →
  trimEnd (s ++ post) = trimEnd s.
Proof.
  intros Hpost. unfold trimEnd.
  rewrite rev_app_distr, trimStart_app_white; [ done | by apply Forall_rev ].
Qed.

Lemma trimEnd_white post :
  Forall (fun c => is_white_space c = true) post → trimEnd post = [].
Proof.
  intros Hpost. unfold trimEnd.
  rewrite trimStart_white; [ done | by apply Forall_rev ].
Qed.

(** [trimEnd] keeps the first code unit of a string that does not start
    with white space. *)
Lemma trimEnd_head s c :
  head s = Some c → is_white_space c = false → head (trimEnd s) = Some c.
Proof.
  destruct s as [ | d s ]; [ done | ]. intros [= ->] Hc.
  unfold trimEnd. cbn [rev]. rewrite trimStart_app. cbn. rewrite Hc.
  destruct (trimStart (rev s)); cbn; [ done | ].
  by rewrite rev_app_distr.
Qed.

Lemma trimEnd_last s c :
  head (rev (trimEnd s)) = Some c → is_white_space c = false.
Proof. unfold trimEnd. rewrite rev_involutive. apply trimStart_head. Qed.

Lemma trim_padding s pre post :
  Forall (fun c => is_white_space c = true) pre →
  Forall (fun c => is_white_space c = true) post →
  trim (pre ++ s ++ post) = trim s.
Proof.
  intros Hpre Hpost. unfold trim.
  rewrite trimStart_app_white by done. rewrite trimStart_app.
  destruct (trimStart s) as [ | d t ] eqn:Ht.
  - by rewrite trimStart_white.
  - rewrite <- Ht. by apply trimEnd_app_white.
Qed.

(** X1. [trim] gives a string with no white space at either end, gives
    the same string again when applied to its result, and does not see
    white space put around its argument. *)
Theorem trim_spec (s pre post : jsstring) :
  (∀ c, head (trim s) = Some c → is_white_space c = false)
  ∧ (∀ c, head (rev (trim s)) = Some c → is_white_space c = false)
  ∧ trim (trim s) = trim s
  ∧ (Forall (fun c => is_white_space c = true) pre →
     Forall (fun c => is_white_space c = true) post →
     trim (pre ++ s ++ post) = trim s).
Proof.
  assert (Hhead : ∀ c, head (trim s) = Some c → is_white_space c = false).
  { intros c. unfold trim.
    destruct (trimStart s) as [ | d t ] eqn:Ht; [ done | ].
    assert (Hd : is_white_space d = false)
      by (apply (trimStart_head s); by rewrite Ht).
    rewrite (trimEnd_head (d :: t) d eq_refl Hd). by intros [= <-]. }
  assert (Hlast : ∀ c, head (rev (trim s)) = Some c → is_white_space c = false)
    by (intros c; apply trimEnd_last).
  split; [ exact Hhead | ]. split; [ exact Hlast | ]. split.
  - unfold trim at 1. rewrite (trimStart_clean (trim s) Hhead).
    unfold trimEnd at 1. rewrite (trimStart_clean (rev (trim s)) Hlast).
    apply rev_involutive.
  - apply trim_padding.
Qed.

Lemma trim_spec_witness :
  Forall (fun c => is_white_space c = true) [0x20; 0x3000]
  ∧ Forall (fun c => is_white_space c = true) [0xA]
  ∧ trim ([0x20; 0x3000] ++ js "New Thread" ++ [0xA]) = js "New Thread".
Proof.
  assert (Hpre : Forall (fun c => is_white_space c = true) [0x20; 0x3000])
    by (repeat constructor).
  assert (Hpost : Forall (fun c => is_white_space c = true) [0xA])
    by (repeat constructor).
  split; [ exact Hpre | ]. split; [ exact Hpost | ].
  destruct (trim_spec (js "New Thread") [0x20; 0x3000] [0xA]) as (_ & _ & _ & Hpad).
  rewrite (Hpad Hpre Hpost). reflexivity.
Defined.

(** X2. White space around a title does not change what the trigger
    does: a thread whose title is "New Thread" between white space gets
    its title request like one called "New Thread". *)
Theorem title_gate_ignores_padding (env : Env) (message : ThreadMessage.t)
  (thread : Thread.t) (pre post : jsstring) :
  Forall (fun c => is_white_space c = true) pre →
  Forall (fun c => is_white_space c = true) post →
  generateThreadTitle env message
    {| Thread.id := Thread.id thread;
       Thread.title := pre ++ Thread.title thread ++ post;
       Thread.metadata := Thread.metadata thread;
       Thread.rest := Thread.rest thread |}
  = generateThreadTitle env message thread.
Proof.
  intros Hpre Hpost. unfold generateThreadTitle. cbn [Thread.title].
  by rewrite (trim_padding (Thread.title thread) pre post Hpre Hpost).
Qed.

Lemma title_gate_ignores_padding_witness :
  Forall (fun c => is_white_space c = true) [0x20]
  ∧ Forall (fun c => is_white_space c = true) [0x9; 0xA]
  ∧ length
      (generateThreadTitle (Sample.env (js "New Thread"))
         (Sample.answer MessageStatus.Ready [])
         (Sample.thread ([0x20] ++ js "New Thread" ++ [0x9; 0xA])))
    = 1%nat.
Proof.
  assert (Hpre : Forall (fun c => is_white_space c = true) [0x20])
    by (repeat constructor).
  assert (Hpost : Forall (fun c => is_white_space c = true) [0x9; 0xA])
    by (repeat constructor).
  split; [ exact Hpre | ]. split; [ exact Hpost | ].
  change (Sample.thread ([0x20] ++ js "New Thread" ++ [0x9; 0xA]))
    with {| Thread.id := Thread.id (Sample.thread (js "New Thread"));
            Thread.title :=
              [0x20] ++ Thread.title (Sample.thread (js "New Thread")) ++ [0x9; 0xA];
            Thread.metadata := Thread.metadata (Sample.thread (js "New Thread"));
            Thread.rest := Thread.rest (Sample.thread (js "New Thread")) |}.
  rewrite (title_gate_ignores_padding (Sample.env (js "New Thread"))
             (Sample.answer MessageStatus.Ready [])
             (Sample.thread (js "New Thread")) [0x20] [0x9; 0xA] Hpre Hpost).
  reflexivity.
Defined.

(** ** Which cells the effects write *)

Lemma agree_refl cell s : agree cell s s.
Proof. by destruct cell. Qed.

Lemma agree_trans cell s1 s2 s3 :
  agree cell s1 s2 → agree cell s2 s3 → agree cell s1 s3.
Proof. destruct cell; cbn; congruence. Qed.

Lemma applyEffect_frame cell effect s :
  writes effect ≠ Some cell → agree cell s (applyEffect s effect).
Proof. destruct effect, cell; cbn; done. Qed.

(** A cell that no effect of a list writes keeps its value. *)
Lemma run_frame cell effects s :
  Forall (fun e => writes e ≠ Some cell) effects → agree cell s (run effects s).
Proof.
  intros Hnone. revert s.
  induction Hnone as [ | e effects He _ IH ]; intros s; [ apply agree_refl | ].
  eapply agree_trans; [ by apply applyEffect_frame | apply IH ].
Qed.

(** The threads after a list of effects are the threads before, written
    by its [updateThread] calls in order. *)
Lemma run_threads effects s :
  threadsAtom (run effects s)
  = fold_left (fun threads thread => updateThreadIn thread threads)
      (threadWrites effects) (threadsAtom s).
Proof.
  revert s. induction effects as [ | e effects IH ]; intros s; [ done | ].
  change (run (e :: effects) s) with (run effects (applyEffect s e)).
  rewrite IH. by destruct e.
Qed.

(** The effects of the title-generation trigger: nothing, or one timer. *)
Lemma generateThreadTitle_cases env message thread :
  generateThreadTitle env message thread = []
  ∨ ∃ request,
      MessageRequest.type request = MessageRequestType.Summary
      ∧ MessageRequest.threadId request = ThreadMessage.thread_id message
      ∧ generateThreadTitle env message thread
        = [ setTimeout (emitMessageSent request) 1000 ].
Proof.
  unfold generateThreadTitle.
  case_decide; [ | by left ]. destruct (activeModelRef env); [ | by left ].
  right. eexists (MessageRequest.mk _ _ _ _ _). repeat split.
Qed.

(** The effects of the message update, by the tests of the source. *)
Lemma updateThreadMessage_cases env message :
  let stored :=
    updateMessage (ThreadMessage.id message) (ThreadMessage.thread_id message)
      (ThreadMessage.content message) (ThreadMessage.status message) in
  let clear :=
    [ updateThreadWaiting (ThreadMessage.thread_id message) false;
      setIsGeneratingResponse false ] in
  (ThreadMessage.status message = MessageStatus.Pending
   ∧ ThreadMessage.content message = []
   ∧ updateThreadMessage env message = [ stored ])
  ∨ (ThreadMessage.status message = MessageStatus.Pending
     ∧ ThreadMessage.content message ≠ []
     ∧ updateThreadMessage env message = stored :: clear)
  ∨ (ThreadMessage.status message ≠ MessageStatus.Pending
     ∧ findThread (threadsRef env) (ThreadMessage.thread_id message) = None
     ∧ updateThreadMessage env message = stored :: clear)
  ∨ (∃ thread,
       ThreadMessage.status message ≠ MessageStatus.Pending
       ∧ findThread (threadsRef env) (ThreadMessage.thread_id message) = Some thread
       ∧ updateThreadMessage env message
         = stored :: clear
           ++ updateThread
                {| Thread.id := Thread.id thread;
                   Thread.title := Thread.title thread;
                   Thread.metadata :=
                     Some (mergeLastMessage (Thread.metadata thread)
                             (firstText (ThreadMessage.content message)));
                   Thread.rest := Thread.rest thread |}
              :: withConversational env
                   [ saveThread
                       {| Thread.id := Thread.id thread;
                          Thread.title := Thread.title thread;
                          Thread.metadata :=
                            Some (mergeLastMessage (Thread.metadata thread)
                                    (firstText (ThreadMessage.content message)));
                          Thread.rest := Thread.rest thread |};
                     extensionAddNewMessage message ]
              ++ generateThreadTitle env message thread).
Proof.
  cbn zeta. unfold updateThreadMessage. case_decide as Hstatus.
  - destruct (ThreadMessage.content message) eqn:Hcontent.
    + by left.
    + right; left. done.
  - destruct (findThread _ _) as [ thread | ] eqn:Hfound.
    + right; right; right. by exists thread.
    + right; right; left. done.
Qed.

(** A message update is taken apart into the effect lists it can give. *)
Ltac update_cases env message :=
  unfold onMessageResponseUpdate;
  destruct (ThreadMessage.type message) eqn:?;
  [ destruct (updateThreadMessage_cases env message)
      as [ (? & ? & ->) | [ (? & ? & ->) | [ (? & ? & ->) | (? & ? & ? & ->) ] ] ];
    [ | | |
      unfold withConversational; destruct (conversational env) eqn:?;
      match goal with
      | |- context [ generateThreadTitle env message ?thread ] =>
          destruct (generateThreadTitle_cases env message thread)
            as [ -> | (? & ? & ? & ->) ]
      end ]
  | destruct (updateThreadTitle_cases env message)
      as [ -> | (? & ? & ? & ? & ? & ? & ->) ];
    [ | unfold withConversational; destruct (conversational env) eqn:? ] ].

(** Membership in one of these lists is settled constructor by
    constructor. *)
Ltac effect_in H :=
  set_unfold in H; destruct_or?; simplify_eq; try done.

(** ** What reaches the collaborators *)

(** X3. The Conversational extension is given a message exactly when a
    non-Summary update with a terminal status arrives for a thread of
    the snapshot, and then it is the message of the update; a thread is
    saved only by an update with a terminal status for a thread of the
    snapshot. Streaming updates, arrivals and model events persist
    nothing. *)
Theorem persistence_only_on_completion (env : Env) (event : Event) :
  (∀ message,
     extensionAddNewMessage message ∈ handle env event
     ↔ event = OnMessageUpdate message
       ∧ ThreadMessage.type message ≠ MessageRequestType.Summary
       ∧ ThreadMessage.status message ≠ MessageStatus.Pending
       ∧ is_Some (findThread (threadsRef env) (ThreadMessage.thread_id message))
       ∧ conversational env = true)
  ∧ (∀ saved,
       saveThread saved ∈ handle env event →
       ∃ message thread,
         event = OnMessageUpdate message
         ∧ ThreadMessage.status message ≠ MessageStatus.Pending
         ∧ findThread (threadsRef env) (ThreadMessage.thread_id message) = Some thread
         ∧ Thread.id saved = Thread.id thread
         ∧ conversational env = true).
Proof.
  split.
  - intros message. split.
    + destruct event as [ m | m | model | res | ]; cbn [handle].
      * unfold onNewMessageResponse. case_decide; intros Hin; effect_in Hin.
      * update_cases env m; intros Hin; effect_in Hin;
          repeat split; eauto; congruence.
      * unfold onModelReady. intros Hin; effect_in Hin.
      * unfold onModelInitFailed. intros Hin; effect_in Hin.
      * unfold onModelStopped. intros Hin; effect_in Hin.
    + intros (-> & Htype & Hstatus & [thread Hfound] & Hext). cbn [handle].
      unfold onMessageResponseUpdate, updateThreadMessage, withConversational.
      destruct (ThreadMessage.type message); [ | done ].
      rewrite decide_False by done. rewrite Hfound, Hext. set_unfold. eauto 10.
  - intros saved. destruct event as [ m | m | model | res | ]; cbn [handle].
    + unfold onNewMessageResponse. case_decide; intros Hin; effect_in Hin.
    + update_cases env m; intros Hin; effect_in Hin;
        match goal with
        | Hfound : findThread _ _ = Some ?thread |- _ => exists m, thread
        end; repeat split; eauto.
    + unfold onModelReady. intros Hin; effect_in Hin.
    + unfold onModelInitFailed. intros Hin; effect_in Hin.
    + unfold onModelStopped. intros Hin; effect_in Hin.
Qed.

(** X4. No handler puts an event on the bus while it runs: a request is
    emitted only when a timer fires. Every request that is emitted has
    type [Summary] and comes from a non-Summary update with a terminal
    status, for the thread of that update. A message of type [Summary]
    is not added to the messages when it arrives and starts no timer
    when it is updated: the answer to a title request cannot ask for
    another title. *)
Theorem title_request_no_feedback (env : Env) :
  (∀ event request, eventsEmit request ∉ handle env event)
  ∧ (∀ event request,
       request ∈ emitted (handle env event) →
       MessageRequest.type request = MessageRequestType.Summary
       ∧ ∃ message,
           event = OnMessageUpdate message
           ∧ ThreadMessage.type message ≠ MessageRequestType.Summary
           ∧ ThreadMessage.status message ≠ MessageStatus.Pending
           ∧ MessageRequest.threadId request = ThreadMessage.thread_id message)
  ∧ (∀ message,
       ThreadMessage.type message = MessageRequestType.Summary →
       handle env (OnMessageResponse message) = []
       ∧ timers (handle env (OnMessageUpdate message)) = []).
Proof.
  split; [ | split ].
  - intros event request.
    destruct event as [ m | m | model | res | ]; cbn [handle].
    + unfold onNewMessageResponse. case_decide; intros Hin; effect_in Hin.
    + update_cases env m; intros Hin; effect_in Hin.
    + unfold onModelReady. intros Hin; effect_in Hin.
    + unfold onModelInitFailed. intros Hin; effect_in Hin.
    + unfold onModelStopped. intros Hin; effect_in Hin.
  - intros event request.
    destruct event as [ m | m | model | res | ]; cbn [handle].
    + unfold onNewMessageResponse. case_decide; intros Hin; effect_in Hin.
    + update_cases env m; cbn; intros Hin; effect_in Hin;
        (split; [ done | ]); exists m; repeat split; eauto; congruence.
    + unfold onModelReady. intros Hin; effect_in Hin.
    + unfold onModelInitFailed. intros Hin; effect_in Hin.
    + unfold onModelStopped. intros Hin; effect_in Hin.
  - intros message Htype. cbn [handle]. split.
    + unfold onNewMessageResponse. rewrite Htype. by rewrite decide_False.
    + unfold onMessageResponseUpdate. rewrite Htype.
      destruct (updateThreadTitle_cases env message)
        as [ -> | (? & ? & ? & ? & ? & ? & ->) ]; [ done | ].
      unfold withConversational. by destruct (conversational env).
Qed.

(** The thread writes of a handler, by the tests of the source. *)
Lemma handle_threadWrites env event :
  threadWrites (handle env event) = []
  ∨ ∃ message thread written,
      event = OnMessageUpdate message
      ∧ ThreadMessage.status message ≠ MessageStatus.Pending
      ∧ findThread (threadsRef env) (ThreadMessage.thread_id message) = Some thread
      ∧ threadWrites (handle env event) = [ written ]
      ∧ Thread.id written = Thread.id thread
      ∧ Thread.rest written = Thread.rest thread
      ∧ (if decide (ThreadMessage.type message = MessageRequestType.Summary)
         then Thread.metadata written = Thread.metadata thread
              ∧ firstText (ThreadMessage.content message) = Some (Thread.title written)
              ∧ Thread.title written ≠ []
         else Thread.title written = Thread.title thread
              ∧ Thread.metadata written
                = Some (mergeLastMessage (Thread.metadata thread)
                          (firstText (ThreadMessage.content message)))).
Proof.
  destruct event as [ m | m | model | res | ]; cbn [handle];
    [ unfold onNewMessageResponse; case_decide; by left
    | | by left .. ].
  update_cases env m; try (by left); right;
    match goal with
    | Hfound : findThread _ _ = Some ?thread |- _ => exists m, thread
    end; eexists;
    (split; [ reflexivity | ]); (split; [ assumption | ]);
    (split; [ assumption | ]); (split; [ reflexivity | ]); cbn;
    (split; [ reflexivity | ]); (split; [ reflexivity | ]);
    case_decide; try congruence; repeat split; assumption.
Qed.

(** X5. Every record that a handler hands to [updateThread] is a thread
    of the snapshot, found under the thread id of the message, with the
    same id and the same remaining fields; an update of type [Summary]
    changes its title and keeps its metadata, any other update keeps its
    title and gives it the merged metadata. No other event writes a
    thread, and no event writes more than one. *)
Theorem thread_writes (env : Env) (event : Event) :
  threadWrites (handle env event) = []
  ∨ ∃ message thread written,
      event = OnMessageUpdate message
      ∧ ThreadMessage.status message ≠ MessageStatus.Pending
      ∧ findThread (threadsRef env) (ThreadMessage.thread_id message) = Some thread
      ∧ threadWrites (handle env event) = [ written ]
      ∧ Thread.id written = Thread.id thread
      ∧ Thread.rest written = Thread.rest thread
      ∧ (if decide (ThreadMessage.type message = MessageRequestType.Summary)
         then Thread.metadata written = Thread.metadata thread
              ∧ firstText (ThreadMessage.content message) = Some (Thread.title written)
              ∧ Thread.title written ≠ []
         else Thread.title written = Thread.title thread
              ∧ Thread.metadata written
                = Some (mergeLastMessage (Thread.metadata thread)
                          (firstText (ThreadMessage.content message)))).
Proof. apply handle_threadWrites. Qed.

(** ** A completed message *)



(** ** The store after one delivery *)

(** The thread list after an event: as before, or with the thread of the
    message replaced by the record the handler wrote. *)
Lemma deliver_threads env s event :
  threadsAtom (deliver env s event) = threadsAtom s
  ∨ ∃ message thread written,
      event = OnMessageUpdate message
      ∧ ThreadMessage.status message ≠ MessageStatus.Pending
      ∧ findThread (threadsAtom s) (ThreadMessage.thread_id message) = Some thread
      ∧ threadsAtom (deliver env s event) = updateThreadIn written (threadsAtom s)
      ∧ Thread.id written = Thread.id thread
      ∧ Thread.rest written = Thread.rest thread
      ∧ (if decide (ThreadMessage.type message = MessageRequestType.Summary)
         then Thread.metadata written = Thread.metadata thread
              ∧ firstText (ThreadMessage.content message) = Some (Thread.title written)
              ∧ Thread.title written ≠ []
         else Thread.title written = Thread.title thread
              ∧ Thread.metadata written
                = Some (mergeLastMessage (Thread.metadata thread)
                          (firstText (ThreadMessage.content message)))).
Proof.
  unfold deliver. rewrite run_threads.
  destruct (handle_threadWrites (refresh s env) event)
    as [ -> | (message & thread & written & -> & ? & ? & -> & ? & ? & ?) ];
    [ by left | right ].
  by exists message, thread, written.
Qed.

(** Looking a thread up after an event. *)
Lemma deliver_findThread env s event thread_id :
  findThread (threadsAtom (deliver env s event)) thread_id
  = findThread (threadsAtom s) thread_id
  ∨ ∃ message thread written,
      event = OnMessageUpdate message
      ∧ ThreadMessage.status message ≠ MessageStatus.Pending
      ∧ thread_id = ThreadMessage.thread_id message
      ∧ findThread (threadsAtom s) thread_id = Some thread
      ∧ findThread (threadsAtom (deliver env s event)) thread_id = Some written
      ∧ Thread.id written = Thread.id thread
      ∧ Thread.rest written = Thread.rest thread
      ∧ (if decide (ThreadMessage.type message = MessageRequestType.Summary)
         then Thread.metadata written = Thread.metadata thread
              ∧ firstText (ThreadMessage.content message) = Some (Thread.title written)
              ∧ Thread.title written ≠ []
         else Thread.title written = Thread.title thread
              ∧ Thread.metadata written
                = Some (mergeLastMessage (Thread.metadata thread)
                          (firstText (ThreadMessage.content message)))).
Proof.
  destruct (deliver_threads env s event)
    as [ -> | (message & thread & written & -> & ? & Hfound & -> & Hid & ? & ?) ];
    [ by left | ].
  rewrite findThread_updateThreadIn.
  destruct (findThread (threadsAtom s) thread_id) as [ c | ] eqn:Hc; [ | by left ].
  cbn. case_bool_decide as Hsame; [ right | by left ].
  pose proof (findThread_id _ _ _ Hc) as Hcid.
  pose proof (findThread_id _ _ _ Hfound) as Hthread.
  assert (thread_id = ThreadMessage.thread_id message) as -> by congruence.
  assert (c = thread) as -> by congruence.
  by exists message, thread, written.
Qed.

(** The messages and the flags after a message update. *)
Lemma update_messages_flags env message s :
  let s' := run (onMessageResponseUpdate env message) s in
  (chatMessages s' = chatMessages s
   ∨ chatMessages s'
     = alter (updateMessageIn (ThreadMessage.id message)
                (ThreadMessage.content message) (ThreadMessage.status message))
         (ThreadMessage.thread_id message) (chatMessages s))
  ∧ ((threadWaitingForResponse s' = threadWaitingForResponse s
      ∧ isGeneratingResponseAtom s' = isGeneratingResponseAtom s)
     ∨ (threadWaitingForResponse s'
        = <[ ThreadMessage.thread_id message := false ]> (threadWaitingForResponse s)
        ∧ isGeneratingResponseAtom s' = false)).
Proof.
  cbn zeta. update_cases env message; cbn; split; auto.
Qed.

(** ** Frames *)

(** X7. The steps about messages (an arrival, an update, the timer of a
    title request) leave the model cells as they are: active model, load
    status, load error, queued-message flag. The steps about the model
    (ready, failed, stopped and its timer) leave the conversation cells
    as they are: threads, messages, waiting flags, generating flag. No
    step writes which thread is the current one. *)
Theorem model_and_conversation_apart (env : Env) (st : Step) (cell : Cell)
  (s : Store) :
  cell = ActiveThread ∨ isModelCell cell = isMessageStep st →
  agree cell s (step env s st).
Proof.
  intros Hcell.
  assert (Hframe : Forall (fun e => writes e ≠ Some cell)
                     (stepEffects (refresh s env) st)).
  { destruct st as [ [ m | m | model | res | ] | [ request | ] ];
      cbn [stepEffects handle runCallback].
    - unfold onNewMessageResponse. case_decide; repeat constructor.
      destruct Hcell as [ -> | Hcell ]; [ done | by destruct cell ].
    - update_cases (refresh s env) m; repeat constructor;
        (destruct Hcell as [ -> | Hcell ]; [ done | by destruct cell ]).
    - unfold onModelReady. repeat constructor;
        (destruct Hcell as [ -> | Hcell ]; [ done | by destruct cell ]).
    - unfold onModelInitFailed. repeat constructor;
        (destruct Hcell as [ -> | Hcell ]; [ done | by destruct cell ]).
    - unfold onModelStopped. repeat constructor;
        (destruct Hcell as [ -> | Hcell ]; [ done | by destruct cell ]).
    - repeat constructor;
        (destruct Hcell as [ -> | Hcell ]; [ done | by destruct cell ]).
    - repeat constructor;
        (destruct Hcell as [ -> | Hcell ]; [ done | by destruct cell ]). }
  destruct st as [ event | callback ]; cbn [step stepEffects] in *;
    by apply run_frame.
Qed.

(** A load failure while thread [t1] waits: the thread keeps waiting. *)
Lemma model_and_conversation_apart_witness :
  isModelCell WaitingForResponse
  = isMessageStep (Deliver (OnModelFail (ModelFailure.mk (VStr (js "out of memory")) (js "llama"))))
  ∧ isWaiting
      (step (Sample.env (js "New Thread")) (Sample.store (js "New Thread"))
         (Deliver (OnModelFail (ModelFailure.mk (VStr (js "out of memory")) (js "llama")))))
      (js "t1")
    = true.
Proof.
  split; [ reflexivity | ].
  unfold isWaiting.
  rewrite <- (model_and_conversation_apart (Sample.env (js "New Thread"))
                (Deliver (OnModelFail (ModelFailure.mk (VStr (js "out of memory")) (js "llama"))))
                WaitingForResponse (Sample.store (js "New Thread"))
                (or_intror eq_refl)).
  reflexivity.
Defined.

(** X8. A message event for one thread leaves every other thread alone:
    its waiting flag, its messages and its thread record are as
    before. *)
Theorem other_threads_untouched (env : Env) (s : Store)
  (message : ThreadMessage.t) (event : Event) (other : jsstring) :
  event = OnMessageResponse message ∨ event = OnMessageUpdate message →
  other ≠ ThreadMessage.thread_id message →
  let s' := deliver env s event in
  threadWaitingForResponse s' !! other = threadWaitingForResponse s !! other
  ∧ chatMessages s' !! other = chatMessages s !! other
  ∧ findThread (threadsAtom s') other = findThread (threadsAtom s) other.
Proof.
  intros Hevent Hother s'. split; [ | split ].
  - subst s'. unfold deliver. destruct Hevent as [ -> | -> ]; cbn [handle].
    + unfold onNewMessageResponse. by case_decide.
    + destruct (update_messages_flags (refresh s env) message s)
        as [_ [ [-> _] | [-> _] ] ]; [ done | by apply lookup_insert_ne ].
  - subst s'. unfold deliver. destruct Hevent as [ -> | -> ]; cbn [handle].
    + unfold onNewMessageResponse. case_decide; [ | done ].
      cbn. by apply lookup_insert_ne.
    + destruct (update_messages_flags (refresh s env) message s)
        as [ [ -> | -> ] _ ]; [ done | by apply lookup_alter_ne ].
  - destruct (deliver_findThread env s event other)
      as [ Hsame | (m & ? & ? & -> & ? & -> & _) ]; [ done | ].
    destruct Hevent as [ [=] | [= ->] ]. done.
Qed.

Lemma other_threads_untouched_witness :
  js "t1" ≠ ThreadMessage.thread_id
              (ThreadMessage.mk (js "m7") (js "t2") ChatCompletionRole.Assistant
                 [ Sample.part (js "Bonjour") ] MessageStatus.Ready
                 MessageRequestType.Thread)
  ∧ isWaiting
      (deliver (Sample.env (js "New Thread")) (Sample.store (js "New Thread"))
         (OnMessageUpdate
            (ThreadMessage.mk (js "m7") (js "t2") ChatCompletionRole.Assistant
               [ Sample.part (js "Bonjour") ] MessageStatus.Ready
               MessageRequestType.Thread)))
      (js "t1")
    = true.
Proof.
  split; [ discriminate | ]. unfold isWaiting.
  destruct (other_threads_untouched (Sample.env (js "New Thread"))
              (Sample.store (js "New Thread"))
              (ThreadMessage.mk (js "m7") (js "t2") ChatCompletionRole.Assistant
                 [ Sample.part (js "Bonjour") ] MessageStatus.Ready
                 MessageRequestType.Thread)
              (OnMessageUpdate
                 (ThreadMessage.mk (js "m7") (js "t2") ChatCompletionRole.Assistant
                    [ Sample.part (js "Bonjour") ] MessageStatus.Ready
                    MessageRequestType.Thread))
              (js "t1"))
    as (-> & _); [ by right | discriminate | ].
  reflexivity.
Defined.

(** ** Invariants of a run *)

Lemma mergeLastMessage_other metadata text key :
  key ≠ js "lastMessage" →
  mergeLastMessage metadata text !! key = default ∅ metadata !! key.
Proof.
  intros Hkey. unfold mergeLastMessage.
  destruct text as [ [ | c value ] | ]; [ done | | done ].
  by apply lookup_insert_ne.
Qed.

Lemma mergeLastMessage_lastMessage metadata text :
  is_Some (default ∅ metadata !! js "lastMessage") →
  is_Some (mergeLastMessage metadata text !! js "lastMessage").
Proof.
  intros Hsome. unfold mergeLastMessage.
  destruct text as [ [ | c value ] | ]; [ done | | done ].
  rewrite lookup_insert_eq. by eexists.
Qed.

Lemma fire_threads callback s :
  threadsAtom (run (runCallback callback) s) = threadsAtom s.
Proof. by destruct callback. Qed.

Lemma step_title env s st thread_id :
  isSummaryUpdate st = false →
  Thread.title <$> findThread (threadsAtom (step env s st)) thread_id
  = Thread.title <$> findThread (threadsAtom s) thread_id.
Proof.
  intros Hst. destruct st as [ event | callback ]; cbn [step];
    [ | by rewrite fire_threads ].
  destruct (deliver_findThread env s event thread_id)
    as [ -> | (m & thread & written & -> & _ & _ & -> & -> & _ & _ & Hkind) ];
    [ done | ].
  cbn in Hst. apply bool_decide_eq_false in Hst.
  rewrite decide_False in Hkind by done. destruct Hkind as [Htitle _].
  cbn. by rewrite Htitle.
Qed.

Lemma step_metadata env s st thread_id key :
  (key ≠ js "lastMessage" →
   threadMetadata (step env s st) thread_id key = threadMetadata s thread_id key)
  ∧ (is_Some (threadMetadata s thread_id key) →
     is_Some (threadMetadata (step env s st) thread_id key)).
Proof.
  unfold threadMetadata.
  destruct st as [ event | callback ]; cbn [step];
    [ | by rewrite fire_threads ].
  destruct (deliver_findThread env s event thread_id)
    as [ -> | (m & thread & written & -> & _ & _ & -> & -> & _ & _ & Hkind) ];
    [ done | ].
  case_decide.
  - destruct Hkind as (-> & _). done.
  - destruct Hkind as (_ & ->). cbn [default from_option]. unfold id. split.
    + apply mergeLastMessage_other.
    + destruct (decide (key = js "lastMessage")) as [ -> | Hkey ].
      * apply mergeLastMessage_lastMessage.
      * by rewrite mergeLastMessage_other.
Qed.

(** X9. While the component renders between the steps, so that every
    delivery finds its refs refreshed from the store, the title of a
    thread changes only when an update of type [Summary] is delivered:
    over any such run of arrivals, other updates, model events and
    timers, every thread keeps its title. *)
Theorem titles_change_only_by_summary (env : Env) (steps : list Step)
  (s : Store) (thread_id : jsstring) :
  forallb (fun st => negb (isSummaryUpdate st)) steps = true →
  Thread.title <$> findThread (threadsAtom (exec env steps s)) thread_id
  = Thread.title <$> findThread (threadsAtom s) thread_id.
Proof.
  revert s. induction steps as [ | st steps IH ]; intros s Hsteps; [ done | ].
  cbn in Hsteps. apply andb_prop in Hsteps as [Hst Hsteps].
  apply negb_true_iff in Hst.
  unfold exec in *. cbn [fold_left]. rewrite (IH _ Hsteps).
  by apply step_title.
Qed.

Lemma titles_change_only_by_summary_witness :
  forallb (fun st => negb (isSummaryUpdate st))
    [ Deliver (OnMessageResponse Sample.question);
      Deliver (OnMessageUpdate
                 (Sample.answer MessageStatus.Ready [ Sample.part (js "Hello world") ]));
      Fire clearActiveModel ]
  = true
  ∧ Thread.title
      <$> findThread
            (threadsAtom
               (exec (Sample.env (js "New Thread"))
                  [ Deliver (OnMessageResponse Sample.question);
                    Deliver (OnMessageUpdate
                               (Sample.answer MessageStatus.Ready
                                  [ Sample.part (js "Hello world") ]));
                    Fire clearActiveModel ]
                  (Sample.store (js "New Thread"))))
            (js "t1")
    = Some (js "New Thread").
Proof.
  split; [ reflexivity | ].
  rewrite (titles_change_only_by_summary (Sample.env (js "New Thread"))
             [ Deliver (OnMessageResponse Sample.question);
               Deliver (OnMessageUpdate
                          (Sample.answer MessageStatus.Ready
                             [ Sample.part (js "Hello world") ]));
               Fire clearActiveModel ]
             (Sample.store (js "New Thread")) (js "t1") eq_refl).
  reflexivity.
Defined.

(** X10. While the component renders between the steps, so that every
    delivery finds its refs refreshed from the store, no run drops or
    changes an entry of the metadata of a thread other than
    [lastMessage], and an entry that is there, [lastMessage] included,
    is there after the run. *)
Theorem metadata_entries_kept (env : Env) (steps : list Step) (s : Store)
  (thread_id key : jsstring) :
  (key ≠ js "lastMessage" →
   threadMetadata (exec env steps s) thread_id key = threadMetadata s thread_id key)
  ∧ (is_Some (threadMetadata s thread_id key) →
     is_Some (threadMetadata (exec env steps s) thread_id key)).
Proof.
  revert s. induction steps as [ | st steps IH ]; intros s; [ done | ].
  unfold exec in *. cbn [fold_left].
  destruct (IH (step env s st)) as [IHother IHsome].
  destruct (step_metadata env s st thread_id key) as [Hother Hsome].
  split.
  - intros Hkey. by rewrite IHother, Hother.
  - intros Hthere. by apply IHsome, Hsome.
Qed.

(** X11. The reactor only ever clears the generating flag, the waiting
    flags and the queued-message flag: a flag that is false stays false
    over any run. *)
Theorem flags_only_cleared (env : Env) (steps : list Step) (s : Store) :
  (isGeneratingResponseAtom s = false →
   isGeneratingResponseAtom (exec env steps s) = false)
  ∧ (∀ thread_id,
       isWaiting s thread_id = false →
       isWaiting (exec env steps s) thread_id = false)
  ∧ (queuedMessageAtom s = false → queuedMessageAtom (exec env steps s) = false).
Proof.
  revert s. induction steps as [ | st steps IH ]; intros s; [ done | ].
  unfold exec in *. cbn [fold_left].
  destruct (IH (step env s st)) as (IHgen & IHwait & IHqueued).
  assert (Hstep :
    (isGeneratingResponseAtom s = false →
     isGeneratingResponseAtom (step env s st) = false)
    ∧ (∀ thread_id, isWaiting s thread_id = false →
                    isWaiting (step env s st) thread_id = false)
    ∧ (queuedMessageAtom s = false → queuedMessageAtom (step env s st) = false)).
  { destruct st as [ [ m | m | model | res | ] | [ request | ] ];
      cbn [step]; unfold deliver; cbn [handle].
    - unfold onNewMessageResponse. by case_decide.
    - assert (Hq : queuedMessageAtom s
                   = queuedMessageAtom (run (onMessageResponseUpdate (refresh s env) m) s)).
      { apply (run_frame QueuedMessage).
        update_cases (refresh s env) m; repeat constructor; done. }
      rewrite <- Hq.
      destruct (update_messages_flags (refresh s env) m s)
        as [_ [ [Hw Hg] | [Hw Hg] ] ]; unfold isWaiting; rewrite Hw, Hg;
        [ done | ].
      split; [ done | ]. split; [ | done ].
      intros thread_id.
      destruct (decide (thread_id = ThreadMessage.thread_id m)) as [ -> | Hne ].
      + by rewrite lookup_insert_eq.
      + by rewrite lookup_insert_ne.
    - done.
    - done.
    - done.
    - done.
    - done. }
  destruct Hstep as (Hgen & Hwait & Hqueued).
  split; [ | split ]; eauto.
Qed.

(** X12. Only a load failure writes the load error: over a run without
    one the error is as before, in particular a model that becomes ready
    does not clear it, and over any run an error that is recorded stays
    recorded. *)
Theorem load_error_stays (env : Env) (steps : list Step) (s : Store) :
  (forallb (fun st => negb (isLoadFailure st)) steps = true →
   loadModelErrorAtom (exec env steps s) = loadModelErrorAtom s)
  ∧ (is_Some (loadModelErrorAtom s) →
     is_Some (loadModelErrorAtom (exec env steps s))).
Proof.
  revert s. induction steps as [ | st steps IH ]; intros s; [ done | ].
  unfold exec in *. cbn [fold_left forallb].
  destruct (IH (step env s st)) as [IHsame IHsome].
  assert (Hstep : (isLoadFailure st = false →
                   loadModelErrorAtom (step env s st) = loadModelErrorAtom s)
                  ∧ (is_Some (loadModelErrorAtom s) →
                     is_Some (loadModelErrorAtom (step env s st)))).
  { destruct st as [ [ m | m | model | res | ] | [ request | ] ];
      cbn [step]; unfold deliver; cbn [handle].
    - unfold onNewMessageResponse. by case_decide.
    - assert (He : loadModelErrorAtom s
                   = loadModelErrorAtom
                       (run (onMessageResponseUpdate (refresh s env) m) s)).
      { apply (run_frame LoadModelError).
        update_cases (refresh s env) m; repeat constructor; done. }
      by rewrite <- He.
    - done.
    - split; [ done | ]. intros _. by eexists.
    - done.
    - done.
    - done. }
  destruct Hstep as [Hsame Hsome]. split.
  - intros Hsteps. apply andb_prop in Hsteps as [Hst Hsteps].
    apply negb_true_iff in Hst. by rewrite IHsame, Hsame.
  - intros Hthere. by apply IHsome, Hsome.
Qed.

Lemma load_error_stays_witness :
  forallb (fun st => negb (isLoadFailure st))
    [ Deliver (OnModelReady Sample.llama); Fire clearActiveModel ] = true
  ∧ loadModelErrorAtom
      (exec (Sample.env (js "New Thread"))
         [ Deliver (OnModelReady Sample.llama); Fire clearActiveModel ]
         (deliver (Sample.env (js "New Thread")) (Sample.store (js "New Thread"))
            (OnModelFail (ModelFailure.mk (VStr (js "out of memory")) (js "llama")))))
    = Some (js "out of memory").
Proof.
  split; [ reflexivity | ].
  destruct (load_error_stays (Sample.env (js "New Thread"))
              [ Deliver (OnModelReady Sample.llama); Fire clearActiveModel ]
              (deliver (Sample.env (js "New Thread")) (Sample.store (js "New Thread"))
                 (OnModelFail (ModelFailure.mk (VStr (js "out of memory")) (js "llama")))))
    as [Hsame _].
  rewrite (Hsame eq_refl). reflexivity.
Defined.

(** ** Events that follow one another *)

(** The thread after a completed message was delivered. *)
Lemma deliver_answer env s message thread :
  ThreadMessage.type message ≠ MessageRequestType.Summary →
  ThreadMessage.status message ≠ MessageStatus.Pending →
  findThread (threadsAtom s) (ThreadMessage.thread_id message) = Some thread →
  findThread (threadsAtom (deliver env s (OnMessageUpdate message)))
    (ThreadMessage.thread_id message)
  = Some {| Thread.id := Thread.id thread;
            Thread.title := Thread.title thread;
            Thread.metadata :=
              Some (mergeLastMessage (Thread.metadata thread)
                      (firstText (ThreadMessage.content message)));
            Thread.rest := Thread.rest thread |}.
Proof.
  intros Htype Hstatus Hfound.
  unfold deliver. rewrite run_threads. cbn [handle].
  assert (Hwrites :
    threadWrites (onMessageResponseUpdate (refresh s env) message)
    = [ {| Thread.id := Thread.id thread;
           Thread.title := Thread.title thread;
           Thread.metadata :=
             Some (mergeLastMessage (Thread.metadata thread)
                     (firstText (ThreadMessage.content message)));
           Thread.rest := Thread.rest thread |} ]).
  { cbn [refresh threadsRef] in *.
    update_cases (refresh s env) message; cbn [refresh threadsRef] in *;
      simplify_eq; done. }
  rewrite Hwrites. cbn [fold_left].
  rewrite findThread_updateThreadIn, Hfound. cbn. by rewrite bool_decide_true.
Qed.

(** X13. A completed message and then the completed summary, for one
    thread of the store: the thread ends with the text of the summary as
    its title and the text of the message as [lastMessage]; the title
    update keeps what the message update wrote. *)
Theorem answer_then_summary (env : Env) (s : Store)
  (answer summary : ThreadMessage.t) (thread : Thread.t) (text title : jsstring) :
  ThreadMessage.type answer ≠ MessageRequestType.Summary →
  ThreadMessage.status answer ≠ MessageStatus.Pending →
  ThreadMessage.type summary = MessageRequestType.Summary →
  ThreadMessage.status summary ≠ MessageStatus.Pending →
  ThreadMessage.thread_id summary = ThreadMessage.thread_id answer →
  findThread (threadsAtom s) (ThreadMessage.thread_id answer) = Some thread →
  firstText (ThreadMessage.content answer) = Some text → text ≠ [] →
  firstText (ThreadMessage.content summary) = Some title → title ≠ [] →
  findThread
    (threadsAtom (feed env [ OnMessageUpdate answer; OnMessageUpdate summary ] s))
    (ThreadMessage.thread_id answer)
  = Some {| Thread.id := Thread.id thread;
            Thread.title := title;
            Thread.metadata :=
              Some (<[ js "lastMessage" := VStr text ]>
                      (default ∅ (Thread.metadata thread)));
            Thread.rest := Thread.rest thread |}.
Proof.
  intros Htype1 Hstatus1 Htype2 Hstatus2 Hsame Hfound Htext Hne Htitle Hne'.
  unfold feed. cbn [fold_left].
  pose proof (deliver_answer env s answer thread Htype1 Hstatus1 Hfound) as Hfirst.
  rewrite <- Hsame in Hfirst |- *.
  rewrite (deliver_summary env _ summary _ title Htype2 Hstatus2 Hfirst Htitle Hne').
  cbn. rewrite Htext. unfold mergeLastMessage. by destruct text.
Qed.

Lemma answer_then_summary_witness :
  findThread (threadsAtom (Sample.store (js "New Thread"))) (js "t1")
  = Some (Sample.thread (js "New Thread"))
  ∧ findThread
      (threadsAtom
         (feed (Sample.env (js "New Thread"))
            [ OnMessageUpdate
                (Sample.answer MessageStatus.Ready [ Sample.part (js "Hello world") ]);
              OnMessageUpdate (Sample.summary (js "Trip to Rome")) ]
            (Sample.store (js "New Thread"))))
      (js "t1")
    = Some (Thread.mk (js "t1") (js "Trip to Rome")
              (Some {[ js "lastMessage" := VStr (js "Hello world");
                       js "pinned" := VBool true ]})
              {[ js "object" := VStr (js "thread") ]}).
Proof.
  split; [ reflexivity | ].
  refine (eq_trans
            (answer_then_summary (Sample.env (js "New Thread"))
               (Sample.store (js "New Thread"))
               (Sample.answer MessageStatus.Ready [ Sample.part (js "Hello world") ])
               (Sample.summary (js "Trip to Rome"))
               (Sample.thread (js "New Thread")) (js "Hello world") (js "Trip to Rome")
               _ _ eq_refl _ eq_refl eq_refl eq_refl _ eq_refl _) _);
    try discriminate; reflexivity.
Defined.

Lemma find_app_last {A} (p : A → bool) (l : list A) (x : A) :
  p x = true → is_Some (find p (l ++ [x])).
Proof.
  intros Hx. induction l as [ | y l IH ]; cbn.
  - rewrite Hx. by eexists.
  - destruct (p y); [ by eexists | exact IH ].
Qed.

(** X14. A message of type [Thread] that arrives and is then updated,
    under its id and thread id, by an update that is not of type
    [Summary]: whatever the store held, the message stored under that id
    has the content and the status of the update. *)
Theorem arrival_then_update (env : Env) (s : Store)
  (message update : ThreadMessage.t) :
  ThreadMessage.type message = MessageRequestType.Thread →
  ThreadMessage.type update ≠ MessageRequestType.Summary →
  ThreadMessage.id update = ThreadMessage.id message →
  ThreadMessage.thread_id update = ThreadMessage.thread_id message →
  ∃ stored,
    storedMessage
      (feed env [ OnMessageResponse message; OnMessageUpdate update ] s)
      (ThreadMessage.id message) (ThreadMessage.thread_id message)
    = Some stored
    ∧ ThreadMessage.content stored = ThreadMessage.content update
    ∧ ThreadMessage.status stored = ThreadMessage.status update.
Proof.
  intros Htype Hupdate Hid Hthread.
  unfold feed. cbn [fold_left]. unfold deliver at 1. cbn [handle].
  set (s1 := deliver env s (OnMessageResponse message)).
  assert (Harrived : is_Some (storedMessage s1 (ThreadMessage.id update)
                                (ThreadMessage.thread_id update))).
  { rewrite Hid, Hthread. subst s1. unfold deliver. cbn [handle].
    unfold onNewMessageResponse. rewrite decide_True by done.
    unfold storedMessage. cbn. rewrite lookup_insert_eq. cbn.
    apply find_app_last. by apply bool_decide_eq_true. }
  destruct Harrived as [stored Hstored].
  pose proof (update_storedMessage (refresh s1 env) update s1 stored Hupdate Hstored)
    as Hafter.
  rewrite Hid, Hthread in Hafter. eexists. split; [ exact Hafter | done ].
Qed.

Lemma arrival_then_update_witness :
  ThreadMessage.type (Sample.answer MessageStatus.Pending []) = MessageRequestType.Thread
  ∧ storedMessage
      (feed (Sample.env (js "New Thread"))
         [ OnMessageResponse (Sample.answer MessageStatus.Pending []);
           OnMessageUpdate
             (Sample.answer MessageStatus.Ready [ Sample.part (js "Hello world") ]) ]
         (Sample.store (js "New Thread")))
      (js "m1") (js "t1")
    = Some (Sample.answer MessageStatus.Ready [ Sample.part (js "Hello world") ]).
Proof.
  split; [ reflexivity | ].
  destruct (arrival_then_update (Sample.env (js "New Thread"))
              (Sample.store (js "New Thread"))
              (Sample.answer MessageStatus.Pending [])
              (Sample.answer MessageStatus.Ready [ Sample.part (js "Hello world") ]))
    as (stored & Hstored & _); [ reflexivity | discriminate | reflexivity .. | ].
  reflexivity.
Defined.

(** X15. The handler of model-stopped changes nothing at once; it starts
    one timer of 500 ms. When that timer fires the active model is
    cleared and the load status becomes [{state: start, loading: false,
    model: ""}], whatever happened in between: a model that became ready
    after the stop is cleared as well. *)
Theorem stop_timer_clears_any_model (env : Env) (s : Store) (model : Model.t) :
  timers (handle env OnModelStopped) = [ (clearActiveModel, 500) ]
  ∧ exec env [ Deliver OnModelStopped ] s = s
  ∧ activeModelAtom
      (exec env [ Deliver OnModelStopped; Deliver (OnModelReady model) ] s)
    = Some model
  ∧ activeModelAtom
      (exec env [ Deliver OnModelStopped; Deliver (OnModelReady model);
                  Fire clearActiveModel ] s)
    = None
  ∧ stateModelAtom
      (exec env [ Deliver OnModelStopped; Deliver (OnModelReady model);
                  Fire clearActiveModel ] s)
    = {| ModelState.state := ModelState.start;
         ModelState.loading := false;
         ModelState.model := [] |}.
Proof. repeat split. Qed.

(** ** An event delivered twice *)

Lemma store_eq s s' : (∀ cell, agree cell s s') → s = s'.
Proof.
  intros Hagree. destruct s, s'.
  pose proof (Hagree ActiveModel). pose proof (Hagree StateModel).
  pose proof (Hagree LoadModelError). pose proof (Hagree QueuedMessage).
  pose proof (Hagree IsGeneratingResponse). pose proof (Hagree WaitingForResponse).
  pose proof (Hagree Threads). pose proof (Hagree ChatMessages).
  pose proof (Hagree ActiveThread). cbn in *. congruence.
Qed.

Lemma agree_sym cell s s' : agree cell s s' → agree cell s' s.
Proof. by destruct cell. Qed.

Lemma updateMessageIn_idem id content status messages :
  updateMessageIn id content status (updateMessageIn id content status messages)
  = updateMessageIn id content status messages.
Proof.
  induction messages as [ | m messages IH ]; [ done | ]. cbn.
  destruct (bool_decide (ThreadMessage.id m = id)) eqn:Hm; cbn.
  - by rewrite Hm.
  - by rewrite Hm, IH.
Qed.

Lemma updateThreadIn_idem thread threads :
  updateThreadIn thread (updateThreadIn thread threads) = updateThreadIn thread threads.
Proof.
  unfold updateThreadIn. rewrite map_map. apply map_ext. intros c.
  destruct (bool_decide (Thread.id c = Thread.id thread)) eqn:Hc.
  - by rewrite bool_decide_true.
  - by rewrite Hc.
Qed.

Lemma mergeLastMessage_idem metadata text :
  mergeLastMessage (Some (mergeLastMessage metadata text)) text
  = mergeLastMessage metadata text.
Proof.
  unfold mergeLastMessage. destruct text as [ [ | c value ] | ]; [ done | | done ].
  cbn. apply insert_insert_eq.
Qed.

(** What an update does to the messages and the flags depends on the
    message alone. *)
Lemma update_messages_flags_by_message message :
  ∃ stores clears : bool, ∀ env s,
    let s' := run (onMessageResponseUpdate env message) s in
    chatMessages s'
    = (if stores
       then alter (updateMessageIn (ThreadMessage.id message)
                     (ThreadMessage.content message) (ThreadMessage.status message))
              (ThreadMessage.thread_id message) (chatMessages s)
       else chatMessages s)
    ∧ threadWaitingForResponse s'
      = (if clears
         then <[ ThreadMessage.thread_id message := false ]> (threadWaitingForResponse s)
         else threadWaitingForResponse s)
    ∧ isGeneratingResponseAtom s'
      = (if clears then false else isGeneratingResponseAtom s).
Proof.
  destruct (ThreadMessage.type message) eqn:Htype.
  - assert (Hnot : ThreadMessage.type message ≠ MessageRequestType.Summary)
      by congruence.
    destruct (decide (ThreadMessage.status message = MessageStatus.Pending))
      as [ Hpending | Hterminal ].
    + destruct (ThreadMessage.content message) as [ | part parts ] eqn:Hcontent.
      * exists true, false. intros env s. cbn zeta.
        rewrite update_chatMessages, Hcontent by done.
        unfold onMessageResponseUpdate, updateThreadMessage.
        rewrite Htype, decide_True, Hcontent by done. done.
      * exists true, true. intros env s. cbn zeta.
        rewrite update_chatMessages, update_waiting, Hcontent by (done || congruence).
        unfold onMessageResponseUpdate, updateThreadMessage.
        rewrite Htype, decide_True, Hcontent by done. done.
    + exists true, true. intros env s. cbn zeta.
      rewrite update_chatMessages by done.
      by destruct (terminal_update_flags env message s Hnot Hterminal) as [-> ->].
  - exists false, false. intros env s. cbn zeta.
    unfold onMessageResponseUpdate. rewrite Htype.
    destruct (updateThreadTitle_cases env message)
      as [ -> | (? & ? & ? & ? & ? & ? & ->) ]; [ done | ].
    unfold withConversational. by destruct (conversational env).
Qed.

(** What an update writes for the thread it finds depends on the message
    and on that thread alone, and writing it again changes nothing. *)
Lemma update_threadWrites_by_thread message :
  ∃ write : Thread.t → option Thread.t,
    (∀ env,
       threadWrites (onMessageResponseUpdate env message)
       = match findThread (threadsRef env) (ThreadMessage.thread_id message) with
         | Some thread => option_list (write thread)
         | None => []
         end)
    ∧ (∀ thread written,
         write thread = Some written →
         Thread.id written = Thread.id thread ∧ write written = Some written).
Proof.
  destruct (decide (ThreadMessage.status message = MessageStatus.Pending))
    as [ Hpending | Hterminal ].
  { exists (fun _ => None). split; [ | done ]. intros env.
    unfold onMessageResponseUpdate, updateThreadMessage, updateThreadTitle.
    rewrite !decide_True by done.
    destruct (ThreadMessage.type message), (ThreadMessage.content message),
      (findThread _ _); done. }
  destruct (ThreadMessage.type message) eqn:Htype.
  - exists (fun thread =>
              Some {| Thread.id := Thread.id thread;
                      Thread.title := Thread.title thread;
                      Thread.metadata :=
                        Some (mergeLastMessage (Thread.metadata thread)
                                (firstText (ThreadMessage.content message)));
                      Thread.rest := Thread.rest thread |}).
    split.
    + intros env. unfold onMessageResponseUpdate, updateThreadMessage.
      rewrite Htype, decide_False by done.
      destruct (findThread _ _) as [ thread | ]; [ | done ].
      unfold withConversational.
      destruct (conversational env),
        (generateThreadTitle_cases env message thread) as [ -> | (? & ? & ? & ->) ];
        done.
    + intros thread written [= <-]. cbn. by rewrite mergeLastMessage_idem.
  - destruct (firstText (ThreadMessage.content message)) as [ [ | c title ] | ] eqn:Htext.
    + exists (fun _ => None). split; [ | done ]. intros env.
      unfold onMessageResponseUpdate, updateThreadTitle.
      rewrite Htype, decide_False, Htext by done. by destruct (findThread _ _).
    + exists (fun thread =>
                Some {| Thread.id := Thread.id thread;
                        Thread.title := c :: title;
                        Thread.metadata := Thread.metadata thread;
                        Thread.rest := Thread.rest thread |}).
      split; [ | by intros thread written [= <-] ]. intros env.
      unfold onMessageResponseUpdate, updateThreadTitle.
      rewrite Htype, decide_False, Htext by done.
      destruct (findThread _ _); [ | done ].
      unfold withConversational. by destruct (conversational env).
    + exists (fun _ => None). split; [ | done ]. intros env.
      unfold onMessageResponseUpdate, updateThreadTitle.
      rewrite Htype, decide_False, Htext by done. by destruct (findThread _ _).
Qed.

Lemma deliver_twice_threads env s message :
  threadsAtom (deliver env (deliver env s (OnMessageUpdate message))
                 (OnMessageUpdate message))
  = threadsAtom (deliver env s (OnMessageUpdate message)).
Proof.
  destruct (update_threadWrites_by_thread message) as (write & Hwrites & Hidem).
  assert (Hone : ∀ s0,
    threadsAtom (deliver env s0 (OnMessageUpdate message))
    = match findThread (threadsAtom s0) (ThreadMessage.thread_id message) with
      | Some thread =>
          match write thread with
          | Some written => updateThreadIn written (threadsAtom s0)
          | None => threadsAtom s0
          end
      | None => threadsAtom s0
      end).
  { intros s0. unfold deliver. rewrite run_threads. cbn [handle].
    rewrite Hwrites. cbn [refresh threadsRef].
    destruct (findThread _ _) as [ thread | ]; [ | done ].
    by destruct (write thread). }
  rewrite (Hone (deliver env s (OnMessageUpdate message))), (Hone s).
  destruct (findThread (threadsAtom s) _) as [ thread | ] eqn:Hfound.
  - destruct (write thread) as [ written | ] eqn:Hwrite.
    + destruct (Hidem _ _ Hwrite) as [Hid Hagain].
      rewrite findThread_updateThreadIn, Hfound. cbn.
      rewrite bool_decide_true by done. rewrite Hagain.
      apply updateThreadIn_idem.
    + by rewrite Hfound, Hwrite.
  - by rewrite Hfound.
Qed.

(** X16. Delivering an event a second time leaves the store as the first
    delivery left it, for every event but the arrival of a message:
    updates, of any type and status, and the model events can be
    repeated. *)
Theorem redelivery_changes_nothing (env : Env) (s : Store) (event : Event) :
  (∀ message, event ≠ OnMessageResponse message) →
  deliver env (deliver env s event) event = deliver env s event.
Proof.
  intros Hevent. apply store_eq. intros cell.
  destruct event as [ m | m | model | res | ];
    [ by destruct (Hevent m) | | by destruct cell .. ].
  unfold deliver. cbn [handle].
  set (s1 := run (onMessageResponseUpdate (refresh s env) m) s).
  assert (Hframe : cell = ActiveThread ∨ isModelCell cell = true →
                   agree cell (run (onMessageResponseUpdate (refresh s1 env) m) s1) s1).
  { intros Hcell. apply agree_sym, run_frame.
    update_cases (refresh s1 env) m; repeat constructor;
      (destruct Hcell as [ -> | Hcell ]; [ done | by destruct cell ]). }
  destruct (update_messages_flags_by_message m) as (stores & clears & Hcells).
  destruct (Hcells (refresh s1 env) s1) as (Hm2 & Hw2 & Hg2).
  destruct (Hcells (refresh s env) s) as (Hm1 & Hw1 & Hg1).
  fold s1 in Hm1, Hw1, Hg1.
  destruct cell; try (apply Hframe; auto; fail); cbn [agree].
  - rewrite Hg2. destruct clears; [ by rewrite Hg1 | done ].
  - rewrite Hw2. destruct clears; [ | done ].
    rewrite Hw1. apply insert_insert_eq.
  - exact (deliver_twice_threads env s m).
  - rewrite Hm2. destruct stores; [ | done ].
    rewrite Hm1, alter_alter_eq. apply map_eq. intros thread_id.
    rewrite !lookup_alter.
    case_decide; [ | done ].
    destruct (chatMessages s !! _); [ | done ].
    cbn. by rewrite updateMessageIn_idem.
Qed.

Lemma redelivery_changes_nothing_witness :
  (∀ message,
     OnMessageUpdate (Sample.answer MessageStatus.Ready [ Sample.part (js "Hello world") ])
     ≠ OnMessageResponse message)
  ∧ deliver (Sample.env (js "New Thread"))
      (deliver (Sample.env (js "New Thread")) (Sample.store (js "New Thread"))
         (OnMessageUpdate
            (Sample.answer MessageStatus.Ready [ Sample.part (js "Hello world") ])))
      (OnMessageUpdate
         (Sample.answer MessageStatus.Ready [ Sample.part (js "Hello world") ]))
    = deliver (Sample.env (js "New Thread")) (Sample.store (js "New Thread"))
        (OnMessageUpdate
           (Sample.answer MessageStatus.Ready [ Sample.part (js "Hello world") ])).
Proof.
  assert (Hevent : ∀ message,
    OnMessageUpdate (Sample.answer MessageStatus.Ready [ Sample.part (js "Hello world") ])
    ≠ OnMessageResponse message) by discriminate.
  split; [ exact Hevent | ].
  apply (redelivery_changes_nothing (Sample.env (js "New Thread"))
           (Sample.store (js "New Thread")) _ Hevent).
Defined.

(** ** Edges *)

(** X17. A Summary update makes no call at all, so that the store stays
    as it is, exactly when its status is [Pending], or its thread is not
    in the snapshot, or it has no content, or its first text is empty. *)
Theorem summary_update_ignored (env : Env) (message : ThreadMessage.t) :
  ThreadMessage.type message = MessageRequestType.Summary →
  onMessageResponseUpdate env message = []
  ↔ ThreadMessage.status message = MessageStatus.Pending
    ∨ findThread (threadsRef env) (ThreadMessage.thread_id message) = None
    ∨ firstText (ThreadMessage.content message) = None
    ∨ firstText (ThreadMessage.content message) = Some [].
Proof.
  intros Htype. unfold onMessageResponseUpdate, updateThreadTitle. rewrite Htype.
  destruct (decide (ThreadMessage.status message = MessageStatus.Pending))
    as [ Hpending | Hterminal ]; [ by split; [ left | ] | ].
  destruct (findThread _ _) as [ thread | ]; [ | by split; [ right; left | ] ].
  destruct (firstText _) as [ [ | c text ] | ].
  - by split; [ right; right; right | ].
  - split; [ done | ]. intros [ ? | [ ? | [ ? | ? ] ] ]; done.
  - by split; [ right; right; left | ].
Qed.

Lemma summary_update_ignored_witness :
  ThreadMessage.type (Sample.summary []) = MessageRequestType.Summary
  ∧ deliver (Sample.env (js "New Thread")) (Sample.store (js "New Thread"))
      (OnMessageUpdate (Sample.summary []))
    = Sample.store (js "New Thread").
Proof.
  split; [ reflexivity | ].
  unfold deliver. cbn [handle].
  rewrite (proj2 (summary_update_ignored
                    (refresh (Sample.store (js "New Thread")) (Sample.env (js "New Thread")))
                    (Sample.summary []) eq_refl));
    [ reflexivity | right; right; right; reflexivity ].
Defined.

(** X18. When the message snapshot is empty the title request is sent
    all the same, and its prompt is the summarization instruction
    alone. *)
Theorem title_request_on_empty_snapshot (env : Env) (message : ThreadMessage.t)
  (thread : Thread.t) :
  ThreadMessage.type message ≠ MessageRequestType.Summary →
  ThreadMessage.status message ≠ MessageStatus.Pending →
  findThread (threadsRef env) (ThreadMessage.thread_id message) = Some thread →
  trim (Thread.title thread) = js "New Thread" →
  is_Some (activeModelRef env) →
  messagesRef env = [] →
  MessageRequest.messages <$> emitted (onMessageResponseUpdate env message)
  = [ [ {| ChatCompletionMessage.role := ChatCompletionRole.User;
           ChatCompletionMessage.content :=
             Some (js "Summarize the conversation above in 5 words as a title") |} ] ].
Proof.
  intros Htype Hstatus Hfound Htitle [activeModel Hmodel] Hempty.
  unfold emitted.
  rewrite (terminal_update_timers env message thread) by done.
  rewrite (generateThreadTitle_fires env message thread activeModel) by done.
  rewrite Hempty. reflexivity.
Qed.

Lemma title_request_on_empty_snapshot_witness :
  findThread [ Sample.thread (js "New Thread") ] (js "t1")
  = Some (Sample.thread (js "New Thread"))
  ∧ length
      (emitted
         (onMessageResponseUpdate
            (Build_Env [ Sample.thread (js "New Thread") ] [] (Some Sample.llama)
               true (js "01HQZ3"))
            (Sample.answer MessageStatus.Ready [ Sample.part (js "Hello world") ])))
    = 1%nat.
Proof.
  split; [ reflexivity | ].
  pose proof (title_request_on_empty_snapshot
                (Build_Env [ Sample.thread (js "New Thread") ] [] (Some Sample.llama)
                   true (js "01HQZ3"))
                (Sample.answer MessageStatus.Ready [ Sample.part (js "Hello world") ])
                (Sample.thread (js "New Thread"))) as Hprompt.
  apply (f_equal length) in Hprompt;
    [ | discriminate | discriminate | reflexivity | reflexivity
      | by eexists | reflexivity ].
  rewrite length_fmap in Hprompt. exact Hprompt.
Defined.

(** ** The model events *)

(** X19. The user is notified by a toast exactly when a model becomes
    ready, with the id of the model in the text; the console gets an
    error exactly when a load fails, with the text of the error. No
    message event, and no stop of a model, does either. *)
Theorem notifications_by_event (env : Env) (event : Event) :
  (∀ title description kind,
     toaster title description kind ∈ handle env event
     ↔ ∃ model,
         event = OnModelReady model
         ∧ title = js "Success!"
         ∧ description = js "Model " ++ Model.id model ++ js " has been started."
         ∧ kind = js "success")
  ∧ (∀ text,
       consoleError text ∈ handle env event
       ↔ ∃ res,
           event = OnModelFail res
           ∧ text = js "Failed to load model: " ++ ToString (ModelFailure.error res)).
Proof.
  split.
  - intros title description kind. split.
    + destruct event as [ m | m | model | res | ]; cbn [handle].
      * unfold onNewMessageResponse. case_decide; intros Hin; effect_in Hin.
      * update_cases env m; intros Hin; effect_in Hin.
      * unfold onModelReady. intros Hin; effect_in Hin. by exists model.
      * unfold onModelInitFailed. intros Hin; effect_in Hin.
      * unfold onModelStopped. intros Hin; effect_in Hin.
    + intros (model & -> & -> & -> & ->). cbn [handle]. unfold onModelReady.
      set_unfold. auto.
  - intros text. split.
    + destruct event as [ m | m | model | res | ]; cbn [handle].
      * unfold onNewMessageResponse. case_decide; intros Hin; effect_in Hin.
      * update_cases env m; intros Hin; effect_in Hin.
      * unfold onModelReady. intros Hin; effect_in Hin.
      * unfold onModelInitFailed. intros Hin; effect_in Hin. by exists res.
      * unfold onModelStopped. intros Hin; effect_in Hin.
    + intros (res & -> & ->). cbn [handle]. unfold onModelInitFailed.
      set_unfold. auto.
Qed.

(** X20. A load failure does not clear the active model: after a model
    became ready and the load of another one failed, the first is still
    the active model, while the load status names the second with the
    action [start], the queued-message flag is false and the load error
    holds the text of the failure, "undefined" when the payload carries
    no error. *)
Theorem failure_keeps_active_model (env : Env) (s : Store) (model : Model.t)
  (res : ModelFailure.t) :
  let s' := feed env [ OnModelReady model; OnModelFail res ] s in
  activeModelAtom s' = Some model
  ∧ stateModelAtom s'
    = {| ModelState.state := ModelState.start;
         ModelState.loading := false;
         ModelState.model := ModelFailure.modelId res |}
  ∧ queuedMessageAtom s' = false
  ∧ loadModelErrorAtom s' = Some (ToString (ModelFailure.error res))
  ∧ (ModelFailure.error res = VUndefined →
     loadModelErrorAtom s' = Some (js "undefined")).
Proof.
  cbn zeta. repeat split. intros Hnone.
  change (Some (ToString (ModelFailure.error res)) = Some (js "undefined")).
  by rewrite Hnone.
Qed.
